(** * plaso/output/kml.py: the KML output module

    A shallow embedding of [KMLOutputModule] and of the parts of the Python
    runtime it calls ([str.format], [ElementTree], [codecs.decode]),
    followed by the properties of the generated document. *)

From Stdlib Require Import ZArith NArith Lia Ascii String List.
From Stdlib Require Import DecimalN DecimalFacts.
From Stdlib Require Import Floats.SpecFloat.
From stdpp Require Import base option list gmap strings.

Local Open Scope N_scope.

(** ** Text and bytes *)

(** A Python [str] is a sequence of Unicode code points; a [bytes] object
    is a sequence of numbers below 256. *)
Abbreviation pystr := (list N).
Abbreviation bytes := (list N).

(** The code points of an ASCII literal of the source. *)
Definition lit (s : string) : pystr :=
  map N_of_ascii (list_ascii_of_string s).

Definition is_ascii (c : N) : bool := c <? 128.

(** Decimal digits, most significant first. *)
Fixpoint uint_chars (u : Decimal.uint) : pystr :=
  match u with
  | Decimal.Nil => []
  | Decimal.D0 u => 48 :: uint_chars u
  | Decimal.D1 u => 49 :: uint_chars u
  | Decimal.D2 u => 50 :: uint_chars u
  | Decimal.D3 u => 51 :: uint_chars u
  | Decimal.D4 u => 52 :: uint_chars u
  | Decimal.D5 u => 53 :: uint_chars u
  | Decimal.D6 u => 54 :: uint_chars u
  | Decimal.D7 u => 55 :: uint_chars u
  | Decimal.D8 u => 56 :: uint_chars u
  | Decimal.D9 u => 57 :: uint_chars u
  end.

(** [str(n)] for a natural number. *)
Definition N_to_pystr (n : N) : pystr := uint_chars (N.to_uint n).

(** [str(z)] for an integer. *)
Definition Z_to_pystr (z : Z) : pystr :=
  match z with
  | Zneg p => 45 :: N_to_pystr (Npos p)
  | _ => N_to_pystr (Z.to_N z)
  end.

(** ** Exceptions and the state of a run *)

Inductive exn : Type :=
| AttributeError
| TypeError
| ValueError
| LookupError
| UnicodeDecodeError
| RecursionError
| NotImplementedError
| RuntimeError (message : string).

Inductive outcome (A : Type) : Type :=
| Ok (a : A)
| Raise (e : exn).
Arguments Ok {A} a.
Arguments Raise {A} e.

(** One [xml.etree.ElementTree.Element]: elements are mutable objects, so
    they live in a store and are named by their position in it. *)
Record ElementNode : Type := mkElement {
  tag : pystr;
  attrib : list (pystr * pystr);
  text : option pystr;
  tail : option pystr;
  children : list nat
}.

(** The state a call runs in: the store of elements and the text the
    sink has received, one entry per write, oldest first. *)
Record state : Type := mkState {
  elements : list ElementNode;
  output : list pystr
}.

(** Computations that read and change the state and may raise; the state
    survives an exception. *)
Definition M (A : Type) : Type := state -> outcome A * state.

Definition ret {A} (a : A) : M A := fun st => (Ok a, st).

Definition raise {A} (e : exn) : M A := fun st => (Raise e, st).

Definition bind {A B} (m : M A) (k : A -> M B) : M B :=
  fun st =>
    match m st with
    | (Ok a, st') => k a st'
    | (Raise e, st') => (Raise e, st')
    end.

(** A call whose outcome does not depend on the state. *)
Definition call {A} (r : outcome A) : M A := fun st => (r, st).

Notation "x <- c1 ;; c2" := (bind c1 (fun x => c2))
  (at level 100, c1 at next level, right associativity).
Notation "c1 ;;; c2" := (bind c1 (fun _ => c2))
  (at level 100, right associativity).

(** ** Python values and their [str()] *)

Inductive pyval : Type :=
| PyNone
| PyBool (b : bool)
| PyInt (z : Z)
| PyFloat (f : spec_float)
| PyStr (s : pystr).

Definition is_not_None (v : pyval) : bool :=
  match v with PyNone => false | _ => true end.

(** Truth value of an object ([bool(v)]); not used by the module, which
    tests [is not None]. *)
Definition py_truthy (v : pyval) : bool :=
  match v with
  | PyNone => false
  | PyBool b => b
  | PyInt z => negb (z =? 0)%Z
  | PyFloat (S754_zero _) => false
  | PyFloat _ => true
  | PyStr [] => false
  | PyStr _ => true
  end.

(** [repr] of a binary64 float: the shortest decimal string that reads
    back as the same float (the closest to the value among the shortest),
    laid out as CPython's [float_repr_style = 'short'] does: positional
    for a decimal point position in (-4, 16], exponent form otherwise. *)
Module FloatRepr.
Local Open Scope Z_scope.

(** Mantissa and exponent of [m * 2^e] with the mantissa on 53 bits, or
    with the least exponent -1074 for subnormal values. *)
Definition canonical (m : positive) (e : Z) : Z * Z :=
  let ec := Z.max (e + (Z.log2 (Zpos m) + 1) - 53) (-1074) in
  (Z.shiftl (Zpos m) (e - ec), ec).

(** The value is [V * 2^(ec-2)] with [V = 4*mc]; a decimal [d * 10^k] is
    compared with [X * 2^(ec-2)] as [d * scaleB] against [X * scaleA]. *)
Definition scaleA (ec k : Z) : Z := 2 ^ Z.max 0 (ec - 2) * 10 ^ Z.max 0 (- k).
Definition scaleB (ec k : Z) : Z := 2 ^ Z.max 0 (2 - ec) * 10 ^ Z.max 0 k.

(** The greatest [E] with [10^E <= V * 2^(ec-2)], searched downwards. *)
Fixpoint find_exp (fuel : nat) (V ec E : Z) : Z :=
  match fuel with
  | O => E
  | S fuel' =>
      if scaleB ec E <=? V * scaleA ec E then E
      else find_exp fuel' V ec (E - 1)
  end.

Definition decimal_exponent (V ec : Z) : Z :=
  find_exp 700 V ec (((ec - 2 + Z.log2 V + 1) * 30103) / 100000 + 2).

(** The [n]-digit decimal nearest to the value, with whether it lies in
    the interval of the reals that round to the float. *)
Definition candidate (mc ec E n : Z) : Z * Z * bool :=
  let V := 4 * mc in
  let LO := if (mc =? 2 ^ 52) && (-1074 <? ec) then V - 1 else V - 2 in
  let HI := V + 2 in
  let k := E - (n - 1) in
  let A := scaleA ec k in
  let B := scaleB ec k in
  let d_lo := (V * A) / B in
  let d_hi := d_lo + 1 in
  let closed := Z.even mc in
  let lo_in := if closed then LO * A <=? d_lo * B else LO * A <? d_lo * B in
  let hi_in := if closed then d_hi * B <=? HI * A else d_hi * B <? HI * A in
  let dist_lo := V * A - d_lo * B in
  let dist_hi := d_hi * B - V * A in
  let nearest :=
    if dist_lo <? dist_hi then d_lo
    else if dist_hi <? dist_lo then d_hi
    else if Z.even d_lo then d_lo else d_hi in
  if lo_in && hi_in then (nearest, k, true)
  else if lo_in then (d_lo, k, true)
  else if hi_in then (d_hi, k, true)
  else (nearest, k, false).

Fixpoint shortest (fuel : nat) (mc ec E n : Z) : Z * Z :=
  match fuel with
  | O => fst (candidate mc ec E n)
  | S fuel' =>
      let '(dk, inside) := candidate mc ec E n in
      if (inside : bool) then dk else shortest fuel' mc ec E (n + 1)
  end.

Fixpoint strip_zeros (fuel : nat) (d k : Z) : Z * Z :=
  match fuel with
  | O => (d, k)
  | S fuel' =>
      if (0 <? d) && (d mod 10 =? 0) then strip_zeros fuel' (d / 10) (k + 1)
      else (d, k)
  end.

(** The digits of the shortest decimal and the position of the decimal
    point relative to their start. *)
Definition digits_decpt (m : positive) (e : Z) : pystr * Z :=
  let '(mc, ec) := canonical m e in
  let E := decimal_exponent (4 * mc) ec in
  let '(dg, kg) := shortest 16 mc ec E 1 in
  let '(d, k) := strip_zeros 17 dg kg in
  let ds := N_to_pystr (Z.to_N d) in
  (ds, Z.of_nat (length ds) + k).

Definition zeros (n : Z) : pystr := replicate (Z.to_nat n) 48%N.

Definition exponent_text (x : Z) : pystr :=
  let sign := if x <? 0 then 45%N else 43%N in
  let ds := N_to_pystr (Z.to_N (Z.abs x)) in
  101%N :: sign :: (if Z.abs x <? 10 then 48%N :: ds else ds).

Definition layout (ds : pystr) (decpt : Z) : pystr :=
  let nd := Z.of_nat (length ds) in
  if (decpt <=? -4) || (16 <? decpt) then
    match ds with
    | [] => []
    | [d] => d :: exponent_text (decpt - 1)
    | d :: rest => d :: 46%N :: rest ++ exponent_text (decpt - 1)
    end
  else if decpt <=? 0 then
    48%N :: 46%N :: zeros (- decpt) ++ ds
  else if nd <=? decpt then
    ds ++ zeros (decpt - nd) ++ [46%N; 48%N]
  else
    take (Z.to_nat decpt) ds ++ 46%N :: drop (Z.to_nat decpt) ds.

Definition float_repr (f : spec_float) : pystr :=
  match f with
  | S754_zero false => lit "0.0"
  | S754_zero true => lit "-0.0"
  | S754_infinity false => lit "inf"
  | S754_infinity true => lit "-inf"
  | S754_nan => lit "nan"
  | S754_finite s m e =>
      let '(ds, decpt) := digits_decpt m e in
      (if s then [45%N] else []) ++ layout ds decpt
  end.

End FloatRepr.

(** [str(v)], which is what the conversion [!s] of [str.format] calls. *)
Definition py_str (v : pyval) : pystr :=
  match v with
  | PyNone => lit "None"
  | PyBool true => lit "True"
  | PyBool false => lit "False"
  | PyInt z => Z_to_pystr z
  | PyFloat f => FloatRepr.float_repr f
  | PyStr s => s
  end.

(** ** xml.etree.ElementTree *)

Module ElementTree.

(** [ElementTree.Element(tag)]: a new element without attributes, text,
    tail or children. *)
Definition Element (tag : pystr) : M nat :=
  fun st =>
    (Ok (length (elements st)),
     mkState (elements st ++ [mkElement tag [] None None []]) (output st)).

Definition append_child (child : nat) (e : ElementNode) : ElementNode :=
  mkElement (tag e) (attrib e) (text e) (tail e) (children e ++ [child]).

(** [ElementTree.SubElement(parent, tag)]: a new element, appended to the
    children of [parent]. *)
Definition SubElement (parent : nat) (tag : pystr) : M nat :=
  element <- Element tag ;;
  fun st =>
    (Ok element,
     mkState (alter (append_child element) parent (elements st)) (output st)).

(** The assignment [element.text = value]. *)
Definition set_text (element : nat) (value : pystr) : M unit :=
  fun st =>
    (Ok tt,
     mkState
       (alter (fun e => mkElement (tag e) (attrib e) (Some value) (tail e)
                          (children e)) element (elements st))
       (output st)).

(** [str.replace] for a pattern of one character. *)
Definition replace (old : N) (new : pystr) (s : pystr) : pystr :=
  flat_map (fun c => if c =? old then new else [c]) s.

Definition _escape_cdata (text : pystr) : pystr :=
  replace 62 (lit "&gt;") (replace 60 (lit "&lt;")
    (replace 38 (lit "&amp;") text)).

Definition _escape_attrib (text : pystr) : pystr :=
  replace 9 (lit "&#09;") (replace 10 (lit "&#10;")
    (replace 13 (lit "&#13;") (replace 34 (lit "&quot;")
      (replace 62 (lit "&gt;") (replace 60 (lit "&lt;")
        (replace 38 (lit "&amp;") text)))))).

(** Python's truth test on [elem.text] and [elem.tail]: [None] and the
    empty string are false. *)
Definition nonempty_text (t : option pystr) : pystr :=
  match t with Some s => s | None => [] end.

Definition serialize_items (items : list (pystr * pystr)) : pystr :=
  flat_map (fun kv => 32 :: fst kv ++ lit "=" ++ 34 :: _escape_attrib (snd kv)
                        ++ [34]) items.

(** [_serialize_xml] for elements whose tags are plain names (no
    [{uri}] prefix, no comment or processing instruction), with
    [short_empty_elements=True]. The recursion follows the references of
    the store; running out of [fuel] is Python's recursion limit. *)
Fixpoint _serialize_xml (fuel : nat) (els : list ElementNode) (elem : nat)
  : outcome pystr :=
  match fuel with
  | O => Raise RecursionError
  | S fuel' =>
      match els !! elem with
      | None => Raise (RuntimeError "dangling element")
      | Some e =>
          let fix serialize_children (cs : list nat) : outcome pystr :=
            match cs with
            | [] => Ok []
            | c :: cs' =>
                match _serialize_xml fuel' els c with
                | Raise x => Raise x
                | Ok s =>
                    match serialize_children cs' with
                    | Raise x => Raise x
                    | Ok t => Ok (s ++ t)
                    end
                end
            end in
          let start := 60 :: tag e ++ serialize_items (attrib e) in
          let after := _escape_cdata (nonempty_text (tail e)) in
          match nonempty_text (text e), children e with
          | [], [] => Ok (start ++ lit " />" ++ after)
          | t, cs =>
              match serialize_children cs with
              | Raise x => Raise x
              | Ok inner =>
                  Ok (start ++ 62 :: _escape_cdata t ++ inner
                        ++ lit "</" ++ tag e ++ 62 :: after)
              end
          end
      end
  end.

(** Encoding to [us-ascii] with [errors="xmlcharrefreplace"]: a character
    outside ASCII becomes a decimal character reference. *)
Definition xmlcharrefreplace (c : N) : bytes :=
  if is_ascii c then [c] else lit "&#" ++ N_to_pystr c ++ lit ";".

Definition encode_ascii (s : pystr) : bytes := flat_map xmlcharrefreplace s.

(** [ElementTree.tostring(element)] with its default arguments: the
    encoding is [us-ascii], for which no XML declaration is written. *)
Definition tostring (element : nat) : M bytes :=
  fun st =>
    match _serialize_xml (length (elements st)) (elements st) element with
    | Ok s => (Ok (encode_ascii s), st)
    | Raise e => (Raise e, st)
    end.

End ElementTree.

(** ** codecs *)

Module codecs.

Definition continuation (b : N) : bool := (128 <=? b) && (b <=? 191).

(** Strict UTF-8: no overlong forms, no surrogates, nothing above
    U+10FFFF. *)
Fixpoint utf_8_decode (bs : bytes) : outcome pystr :=
  match bs with
  | [] => Ok []
  | b0 :: rest =>
      let cons_ok (c : N) (r : outcome pystr) :=
        match r with Ok s => Ok (c :: s) | Raise e => Raise e end in
      if b0 <? 128 then cons_ok b0 (utf_8_decode rest)
      else if (194 <=? b0) && (b0 <=? 223) then
        match rest with
        | b1 :: rest1 =>
            if continuation b1
            then cons_ok ((b0 - 192) * 64 + (b1 - 128)) (utf_8_decode rest1)
            else Raise UnicodeDecodeError
        | _ => Raise UnicodeDecodeError
        end
      else if (224 <=? b0) && (b0 <=? 239) then
        match rest with
        | b1 :: b2 :: rest2 =>
            if continuation b1 && continuation b2
               && (negb (b0 =? 224) || (160 <=? b1))
               && (negb (b0 =? 237) || (b1 <=? 159))
            then cons_ok ((b0 - 224) * 4096 + (b1 - 128) * 64 + (b2 - 128))
                   (utf_8_decode rest2)
            else Raise UnicodeDecodeError
        | _ => Raise UnicodeDecodeError
        end
      else if (240 <=? b0) && (b0 <=? 244) then
        match rest with
        | b1 :: b2 :: b3 :: rest3 =>
            if continuation b1 && continuation b2 && continuation b3
               && (negb (b0 =? 240) || (144 <=? b1))
               && (negb (b0 =? 244) || (b1 <=? 143))
            then cons_ok ((b0 - 240) * 262144 + (b1 - 128) * 4096
                          + (b2 - 128) * 64 + (b3 - 128))
                   (utf_8_decode rest3)
            else Raise UnicodeDecodeError
        | _ => Raise UnicodeDecodeError
        end
      else Raise UnicodeDecodeError
  end.

Definition ascii_decode (bs : bytes) : outcome pystr :=
  if forallb is_ascii bs then Ok bs else Raise UnicodeDecodeError.

Definition latin_1_decode (bs : bytes) : outcome pystr := Ok bs.

(** UTF-16, little endian, without a byte order mark. *)
Fixpoint utf_16_le_units (bs : bytes) : option (list N) :=
  match bs with
  | [] => Some []
  | [_] => None
  | lo :: hi :: rest =>
      match utf_16_le_units rest with
      | Some us => Some (lo + 256 * hi :: us)
      | None => None
      end
  end.

Fixpoint utf_16_pairs (us : list N) : outcome pystr :=
  match us with
  | [] => Ok []
  | u :: rest =>
      let cons_ok (c : N) (r : outcome pystr) :=
        match r with Ok s => Ok (c :: s) | Raise e => Raise e end in
      if (55296 <=? u) && (u <=? 56319) then
        match rest with
        | v :: rest' =>
            if (56320 <=? v) && (v <=? 57343)
            then cons_ok (65536 + (u - 55296) * 1024 + (v - 56320))
                   (utf_16_pairs rest')
            else Raise UnicodeDecodeError
        | [] => Raise UnicodeDecodeError
        end
      else if (56320 <=? u) && (u <=? 57343) then Raise UnicodeDecodeError
      else cons_ok u (utf_16_pairs rest)
  end.

Definition utf_16_le_decode (bs : bytes) : outcome pystr :=
  match utf_16_le_units bs with
  | Some us => utf_16_pairs us
  | None => Raise UnicodeDecodeError
  end.

(** A codec registry maps an encoding name to its decoder. *)
Definition registry : Type := pystr -> option (bytes -> outcome pystr).

(** Some of the codecs of CPython, under their usual spellings. *)
Definition python_codecs : registry :=
  fun name =>
    if bool_decide (name ∈ [lit "utf-8"; lit "utf8"; lit "UTF-8"])
    then Some utf_8_decode
    else if bool_decide (name ∈ [lit "ascii"; lit "us-ascii"])
    then Some ascii_decode
    else if bool_decide (name ∈ [lit "latin-1"; lit "iso-8859-1"])
    then Some latin_1_decode
    else if bool_decide (name ∈ [lit "utf-16-le"])
    then Some utf_16_le_decode
    else None.

(** [codecs.decode(obj, encoding)]: an unknown encoding raises
    [LookupError], undecodable input [UnicodeDecodeError]. *)
Definition decode (codec_registry : registry) (obj : bytes)
  (encoding : pystr) : M pystr :=
  match codec_registry encoding with
  | Some decoder => call (decoder obj)
  | None => raise LookupError
  end.

(** A decoder that maps ASCII bytes to the characters of the same
    number, as every ASCII-compatible encoding does. *)
Definition ascii_compatible (decoder : bytes -> outcome pystr) : Prop :=
  forall bs : bytes, forallb is_ascii bs = true -> decoder bs = Ok bs.

End codecs.

(** ** The collaborators of the module *)

(** Modelled from the spec: the attribute containers of
    [plaso.containers] (events, event data, event data streams, event
    tags) are not part of the sources at hand; a container is the map of
    its attribute values, read with [getattr]. *)
Record AttributeContainer : Type := mkContainer {
  attributes : gmap string pyval
}.

Definition getattr (object : AttributeContainer) (name : string)
  (default : pyval) : pyval :=
  match attributes object !! name with
  | Some value => value
  | None => default
  end.

(** Modelled from the spec: the identifier of an event is an opaque
    string-convertible token, whose conversion [CopyToString] yields a
    string or fails. *)
Record AttributeContainerIdentifier : Type := mkIdentifier {
  CopyToString : outcome pystr
}.

(** Modelled from the spec: an event gives its identifier with
    [GetIdentifier], [None] when it has none. *)
Record EventObject : Type := mkEvent {
  GetIdentifier : option AttributeContainerIdentifier;
  event_attributes : AttributeContainer
}.

Abbreviation EventData := AttributeContainer.
Abbreviation EventDataStream := AttributeContainer.
Abbreviation EventTag := AttributeContainer.

(** Modelled from the spec: the description of an event is an opaque
    pre-formatted string supplied by an external formatting helper
    ([rawpy.NativePythonEventFormattingHelper] in the module). *)
Record EventFormattingHelper : Type := mkHelper {
  GetFormattedEvent :
    EventObject -> EventData -> option EventDataStream -> option EventTag ->
    outcome pystr
}.

(** Modelled from the spec: the output mediator holds the configured
    encoding name. *)
Record OutputMediator : Type := mkMediator {
  encoding : pystr
}.

(** ** KMLOutputModule *)

Record KMLOutputModule : Type := mkModule {
  _output_mediator : OutputMediator;
  _event_formatting_helper : EventFormattingHelper
}.

(** Modelled from the spec: [WriteText] of the base class
    [interface.TextFileOutputModule] hands the text to the sink, which
    accepts text in order; one call is one write. *)
Definition WriteText (self : KMLOutputModule) (text : pystr) : M unit :=
  fun st => (Ok tt, mkState (elements st) (output st ++ [text])).

(** No reference to an element outlives the call of [WriteEventBody] that
    created it, so the elements of earlier calls are garbage when the
    next ones are created: the store starts empty. *)
Definition collect_elements : M unit :=
  fun st => (Ok tt, mkState [] (output st)).

Section Writer.

Variable codec_registry : codecs.registry.

Definition WriteEventBody (self : KMLOutputModule) (event : EventObject)
  (event_data : EventData) (event_data_stream : option EventDataStream)
  (event_tag : option EventTag) : M unit :=
  let latitude := getattr event_data "latitude" PyNone in
  let longitude := getattr event_data "longitude" PyNone in
  if is_not_None latitude && is_not_None longitude then
    collect_elements ;;;
    placemark_xml_element <- ElementTree.Element (lit "Placemark") ;;

    name_xml_element <-
      ElementTree.SubElement placemark_xml_element (lit "name") ;;

    event_identifier <- ret (GetIdentifier event) ;;
    identifier_string <-
      match event_identifier with
      | Some identifier => call (CopyToString identifier)
      | None => raise AttributeError
      end ;;
    ElementTree.set_text name_xml_element identifier_string ;;;

    description_xml_element <-
      ElementTree.SubElement placemark_xml_element (lit "description") ;;

    description_text <-
      call (GetFormattedEvent (_event_formatting_helper self)
              event event_data event_data_stream event_tag) ;;

    ElementTree.set_text description_xml_element (description_text ++ [10]) ;;;

    point_xml_element <-
      ElementTree.SubElement placemark_xml_element (lit "Point") ;;

    coordinates_xml_element <-
      ElementTree.SubElement point_xml_element (lit "coordinates") ;;
    ElementTree.set_text coordinates_xml_element
      (py_str longitude ++ lit "," ++ py_str latitude) ;;;

    xml_string <- ElementTree.tostring placemark_xml_element ;;

    output_text <-
      codecs.decode codec_registry xml_string
        (encoding (_output_mediator self)) ;;
    WriteText self output_text
  else ret tt.

Definition WriteHeader (self : KMLOutputModule) : M unit :=
  let xml_string :=
    lit "<?xml version=" ++ 34 :: lit "1.0" ++ 34 :: lit " encoding=" ++ 34 ::
    encoding (_output_mediator self) ++ 34 :: lit "?>" ++
    lit "<kml xmlns=" ++ 34 :: lit "http://www.opengis.net/kml/2.2" ++
    34 :: lit "><Document>" in
  WriteText self xml_string.

Definition WriteFooter (self : KMLOutputModule) : M unit :=
  WriteText self (lit "</Document></kml>").

(** ** Sequences of calls *)

(** One record of the stream: the arguments of one [WriteEventBody]. *)
Record record : Type := mkRecord {
  rec_event : EventObject;
  rec_event_data : EventData;
  rec_event_data_stream : option EventDataStream;
  rec_event_tag : option EventTag
}.

Inductive method_call : Type :=
| CallWriteHeader
| CallWriteEventBody (r : record)
| CallWriteFooter.

Definition perform (self : KMLOutputModule) (c : method_call) : M unit :=
  match c with
  | CallWriteHeader => WriteHeader self
  | CallWriteEventBody r =>
      WriteEventBody self (rec_event r) (rec_event_data r)
        (rec_event_data_stream r) (rec_event_tag r)
  | CallWriteFooter => WriteFooter self
  end.

(** The calls of a caller that handles no exception, in order: the first
    exception ends the sequence. *)
Fixpoint perform_all (self : KMLOutputModule) (cs : list method_call)
  : M unit :=
  match cs with
  | [] => ret tt
  | c :: cs' => perform self c ;;; perform_all self cs'
  end.

(** [WriteHeader], then [WriteEventBody] for each record, then
    [WriteFooter]. *)
Definition write_document (self : KMLOutputModule) (records : list record)
  : M unit :=
  perform_all self
    (CallWriteHeader :: map CallWriteEventBody records ++ [CallWriteFooter]).

(** A record is eligible for a placemark when both coordinates are
    present. *)
Definition eligible (r : record) : bool :=
  is_not_None (getattr (rec_event_data r) "latitude" PyNone)
  && is_not_None (getattr (rec_event_data r) "longitude" PyNone).

End Writer.

(** The text the sink holds: its writes, concatenated. *)
Definition document (st : state) : pystr := concat (output st).

Definition initial_state : state := mkState [] [].

(** ** Reading the document back

    A reader for the part of XML 1.0 the module can produce: an optional
    XML declaration, start, end and empty-element tags with double-quoted
    attribute values, character data with the predefined entities and
    numeric character references, and end-of-line normalization. It has
    no comments, processing instructions, CDATA sections or document type
    declarations and rejects what it does not know, so what it accepts is
    well-formed, and the tree it returns is the one an XML processor
    reports. *)

Module XML.

(** Production [2] of XML 1.0: the characters a document may contain. *)
Definition is_char (c : N) : bool :=
  (c =? 9) || (c =? 10) || (c =? 13) || ((32 <=? c) && (c <=? 55295))
  || ((57344 <=? c) && (c <=? 65533)) || ((65536 <=? c) && (c <=? 1114111)).

Definition is_letter (c : N) : bool :=
  ((65 <=? c) && (c <=? 90)) || ((97 <=? c) && (c <=? 122)).

Definition is_digit (c : N) : bool := (48 <=? c) && (c <=? 57).

(** ASCII names: a letter, [_] or [:], then letters, digits and [._:-]. *)
Definition is_name_start (c : N) : bool :=
  is_letter c || (c =? 95) || (c =? 58).

Definition is_name_char (c : N) : bool :=
  is_name_start c || is_digit c || (c =? 45) || (c =? 46).

(** Production [81] EncName: a letter, then letters, digits and [._-]. *)
Definition is_enc_char (c : N) : bool :=
  is_letter c || is_digit c || (c =? 45) || (c =? 46) || (c =? 95).

Definition is_enc_name (s : pystr) : bool :=
  match s with
  | [] => false
  | c :: _ => is_letter c && forallb is_enc_char s
  end.

Definition is_space (c : N) : bool := (c =? 32) || (c =? 9) || (c =? 10).

#[warnings="-register-all"]
Inductive node : Type :=
| Text (s : pystr)
| Elem (name : pystr) (attrs : list (pystr * pystr)) (content : list node).

Inductive token : Type :=
| TDecl (version encoding : pystr)
| TStart (name : pystr) (attrs : list (pystr * pystr))
| TEmpty (name : pystr) (attrs : list (pystr * pystr))
| TEnd (name : pystr)
| TText (s : pystr).

Fixpoint span (p : N -> bool) (s : pystr) : pystr * pystr :=
  match s with
  | c :: s' =>
      if p c then let '(a, b) := span p s' in (c :: a, b) else ([], s)
  | [] => ([], [])
  end.

Fixpoint strip_prefix (p s : pystr) : option pystr :=
  match p, s with
  | [], _ => Some s
  | a :: p', b :: s' => if a =? b then strip_prefix p' s' else None
  | _ :: _, [] => None
  end.

Fixpoint pystr_eqb (a b : pystr) : bool :=
  match a, b with
  | [], [] => true
  | x :: a', y :: b' => (x =? y) && pystr_eqb a' b'
  | _, _ => false
  end.

Fixpoint chars_uint (s : pystr) : option Decimal.uint :=
  match s with
  | [] => Some Decimal.Nil
  | c :: s' =>
      match chars_uint s' with
      | None => None
      | Some u =>
          match c with
          | 48 => Some (Decimal.D0 u) | 49 => Some (Decimal.D1 u)
          | 50 => Some (Decimal.D2 u) | 51 => Some (Decimal.D3 u)
          | 52 => Some (Decimal.D4 u) | 53 => Some (Decimal.D5 u)
          | 54 => Some (Decimal.D6 u) | 55 => Some (Decimal.D7 u)
          | 56 => Some (Decimal.D8 u) | 57 => Some (Decimal.D9 u)
          | _ => None
          end
      end
  end.

Definition parse_decimal (s : pystr) : option N :=
  match s with
  | [] => None
  | _ => N.of_uint <$> chars_uint s
  end.

Definition hex_value (c : N) : option N :=
  if is_digit c then Some (c - 48)
  else if (65 <=? c) && (c <=? 70) then Some (c - 55)
  else if (97 <=? c) && (c <=? 102) then Some (c - 87)
  else None.

Fixpoint parse_hex_from (acc : N) (s : pystr) : option N :=
  match s with
  | [] => Some acc
  | c :: s' =>
      match hex_value c with
      | Some v => parse_hex_from (16 * acc + v) s'
      | None => None
      end
  end.

Definition parse_hex (s : pystr) : option N :=
  match s with [] => None | _ => parse_hex_from 0 s end.

(** The character a reference [&r;] stands for. *)
Definition decode_reference (r : pystr) : option N :=
  if pystr_eqb r (lit "amp") then Some 38
  else if pystr_eqb r (lit "lt") then Some 60
  else if pystr_eqb r (lit "gt") then Some 62
  else if pystr_eqb r (lit "quot") then Some 34
  else if pystr_eqb r (lit "apos") then Some 39
  else
    match r with
    | 35 :: x :: h =>
        match (if x =? 120 then parse_hex h else parse_decimal (x :: h)) with
        | Some c => if is_char c then Some c else None
        | None => None
        end
    | _ => None
    end.

Definition parse_name (s : pystr) : option (pystr * pystr) :=
  match s with
  | c :: _ => if is_name_start c then Some (span is_name_char s) else None
  | [] => None
  end.

Definition is_attr_value_char (c : N) : bool :=
  is_char c && negb (c =? 60) && negb (c =? 38) && negb (c =? 34).

(** The attributes of a tag and whether it ends with [/]. *)
Fixpoint parse_attributes (fuel : nat) (s : pystr)
  : option (list (pystr * pystr) * bool) :=
  match fuel with
  | O => None
  | S fuel' =>
      let '(sp, s1) := span is_space s in
      match s1 with
      | [] => Some ([], false)
      | [47] => Some ([], true)
      | _ =>
          match sp, parse_name s1 with
          | _ :: _, Some (key, 61 :: 34 :: s2) =>
              match span is_attr_value_char s2 with
              | (value, 34 :: s3) =>
                  match parse_attributes fuel' s3 with
                  | Some (attrs, empty) =>
                      if existsb (fun kv => pystr_eqb (fst kv) key) attrs
                      then None
                      else Some ((key, value) :: attrs, empty)
                  | None => None
                  end
              | _ => None
              end
          | _, _ => None
          end
      end
  end.

Definition parse_declaration (s : pystr) : option token :=
  match strip_prefix (lit "xml version=" ++ 34 :: lit "1.0" ++ [34]) s with
  | None => None
  | Some s1 =>
      match strip_prefix (lit " encoding=" ++ [34]) s1 with
      | Some s2 =>
          let '(enc, s3) := span is_enc_char s2 in
          if is_enc_name enc && pystr_eqb s3 (34 :: lit "?")
          then Some (TDecl (lit "1.0") enc) else None
      | None =>
          if pystr_eqb s1 (lit "?") then Some (TDecl (lit "1.0") [])
          else None
      end
  end.

(** What stands between [<] and [>]. *)
Definition parse_markup (body : pystr) : option token :=
  match body with
  | 63 :: s => parse_declaration s
  | 47 :: s =>
      match parse_name s with
      | Some (name, s1) =>
          if forallb is_space s1 then Some (TEnd name) else None
      | None => None
      end
  | _ =>
      match parse_name body with
      | Some (name, s1) =>
          match parse_attributes (S (length s1)) s1 with
          | Some (attrs, true) => Some (TEmpty name attrs)
          | Some (attrs, false) => Some (TStart name attrs)
          | None => None
          end
      | None => None
      end
  end.

(** The reader is in character data (with the text read so far, newest
    first, and whether a line feed would complete a carriage return), in
    a reference, or in markup. *)
Inductive lex_state : Type :=
| Content (txt : pystr) (after_cr : bool)
| Reference (txt : pystr) (ref : pystr)
| Markup (body : pystr).

Definition flush (txt : pystr) (toks : list token) : list token :=
  match txt with [] => toks | _ => TText (rev txt) :: toks end.

Definition is_markup_char (c : N) : bool :=
  is_char c && negb (c =? 60) && negb (c =? 62) && negb (c =? 13).

Fixpoint lex (st : lex_state) (toks : list token) (s : pystr)
  : option (list token) :=
  match s with
  | [] =>
      match st with
      | Content txt _ => Some (rev (flush txt toks))
      | _ => None
      end
  | c :: s' =>
      match st with
      | Content txt after_cr =>
          if c =? 60 then lex (Markup []) (flush txt toks) s'
          else if c =? 38 then lex (Reference txt []) toks s'
          else if c =? 13 then lex (Content (10 :: txt) true) toks s'
          else if (c =? 10) && after_cr then lex (Content txt false) toks s'
          else if (c =? 62) && pystr_eqb (take 2 txt) [93; 93] then None
          else if is_char c then lex (Content (c :: txt) false) toks s'
          else None
      | Reference txt ref =>
          if c =? 59 then
            match decode_reference (rev ref) with
            | Some ch => lex (Content (ch :: txt) false) toks s'
            | None => None
            end
          else if is_name_char c || (c =? 35)
          then lex (Reference txt (c :: ref)) toks s'
          else None
      | Markup body =>
          if c =? 62 then
            match parse_markup (rev body) with
            | Some t => lex (Content [] false) (t :: toks) s'
            | None => None
            end
          else if is_markup_char c then lex (Markup (c :: body)) toks s'
          else None
      end
  end.

Definition frame : Type := pystr * list (pystr * pystr) * list node.

(** A finished element becomes a child of the open element, or the root
    of the document when none is open and there is no root yet. *)
Definition add_node (nd : node) (stack : list frame) (root : option node)
  : option (list frame * option node) :=
  match stack, root with
  | (n, a, ch) :: stack', _ => Some ((n, a, nd :: ch) :: stack', root)
  | [], None => Some ([], Some nd)
  | [], Some _ => None
  end.

Fixpoint build (toks : list token) (stack : list frame) (root : option node)
  : option node :=
  match toks with
  | [] => match stack with [] => root | _ => None end
  | t :: toks' =>
      match t with
      | TDecl _ _ => None
      | TText s =>
          match stack with
          | (n, a, ch) :: stack' => build toks' ((n, a, Text s :: ch) :: stack') root
          | [] => None
          end
      | TStart n a =>
          match stack, root with
          | [], Some _ => None
          | _, _ => build toks' ((n, a, []) :: stack) root
          end
      | TEmpty n a =>
          match add_node (Elem n a []) stack root with
          | Some (stack', root') => build toks' stack' root'
          | None => None
          end
      | TEnd n =>
          match stack with
          | (n', a, ch) :: stack' =>
              if pystr_eqb n n' then
                match add_node (Elem n a (rev ch)) stack' root with
                | Some (stack'', root') => build toks' stack'' root'
                | None => None
                end
              else None
          | [] => None
          end
      end
  end.

(** A document: an optional XML declaration, then one element. *)
Definition parse_document (s : pystr) : option node :=
  match lex (Content [] false) [] s with
  | Some (TDecl _ _ :: toks) => build toks [] None
  | Some toks => build toks [] None
  | None => None
  end.

(** A fragment: one element without a declaration. *)
Definition parse_element (s : pystr) : option node :=
  match lex (Content [] false) [] s with
  | Some toks => build toks [] None
  | None => None
  end.

(** End-of-line normalization of character data (XML 1.0, 2.11): a
    carriage return, with the line feed that follows it if any, is read
    as one line feed. *)
Fixpoint normalize_from (after_cr : bool) (s : pystr) : pystr :=
  match s with
  | [] => []
  | c :: s' =>
      if c =? 13 then 10 :: normalize_from true s'
      else if (c =? 10) && after_cr then normalize_from false s'
      else c :: normalize_from false s'
  end.

Definition normalize_eol (s : pystr) : pystr := normalize_from false s.

(** The character data directly inside an element. *)
Definition text_of (nd : node) : pystr :=
  match nd with
  | Text s => s
  | Elem _ _ content =>
      flat_map (fun c => match c with Text s => s | Elem _ _ _ => [] end)
        content
  end.

Definition is_element (nd : node) : bool :=
  match nd with Elem _ _ _ => true | Text _ => false end.

Definition name_of (nd : node) : pystr :=
  match nd with Text _ => [] | Elem name _ _ => name end.

(** The first child element with the given name. *)
Definition child (name : pystr) (nd : node) : option node :=
  match nd with
  | Text _ => None
  | Elem _ _ content =>
      List.find (fun c => is_element c && pystr_eqb (name_of c) name) content
  end.

Definition children_of (nd : node) : list node :=
  match nd with
  | Text _ => []
  | Elem _ _ content => List.filter is_element content
  end.

End XML.

(** ** What the module is expected to write *)

(** The escaped form of a text: [_escape_cdata], then the encoding of
    [tostring]. *)
Definition escape_text (t : pystr) : pystr :=
  ElementTree.encode_ascii (ElementTree._escape_cdata t).

(** An element without attributes or children, as [tostring] prints
    it. *)
Definition element_text (tag t : pystr) : pystr :=
  match t with
  | [] => 60 :: tag ++ lit " />"
  | _ => 60 :: tag ++ 62 :: escape_text t ++ lit "</" ++ tag ++ [62]
  end.

Definition coordinates_text (latitude longitude : pyval) : pystr :=
  py_str longitude ++ lit "," ++ py_str latitude.

Definition placemark_text (id desc coords : pystr) : pystr :=
  lit "<Placemark>" ++ element_text (lit "name") id
  ++ element_text (lit "description") (desc ++ [10])
  ++ lit "<Point>" ++ element_text (lit "coordinates") coords
  ++ lit "</Point></Placemark>".

(** The five elements of a placemark, in the order of their creation. *)
Definition placemark_elements (id desc coords : pystr) : list ElementNode :=
  [ mkElement (lit "Placemark") [] None None [1; 2; 3]%nat;
    mkElement (lit "name") [] (Some id) None [];
    mkElement (lit "description") [] (Some (desc ++ [10])) None [];
    mkElement (lit "Point") [] None None [4%nat];
    mkElement (lit "coordinates") [] (Some coords) None [] ].

Definition xml_declaration (enc : pystr) : pystr :=
  lit "<?xml version=" ++ 34 :: lit "1.0" ++ 34 :: lit " encoding=" ++ 34 ::
  enc ++ 34 :: lit "?>".

Definition kml_namespace : pystr := lit "http://www.opengis.net/kml/2.2".

Definition header_text (enc : pystr) : pystr :=
  xml_declaration enc ++ lit "<kml xmlns=" ++ 34 :: kml_namespace
  ++ 34 :: lit ">" ++ lit "<Document>".

Definition footer_text : pystr := lit "</Document></kml>".

(** The texts of a record: what [CopyToString] and the formatting helper
    return for it, and its coordinates. *)
Definition identifier_of (r : record) : outcome pystr :=
  match GetIdentifier (rec_event r) with
  | Some identifier => CopyToString identifier
  | None => Raise AttributeError
  end.

Definition description_of (self : KMLOutputModule) (r : record)
  : outcome pystr :=
  GetFormattedEvent (_event_formatting_helper self) (rec_event r)
    (rec_event_data r) (rec_event_data_stream r) (rec_event_tag r).

Definition latitude_of (r : record) : pyval :=
  getattr (rec_event_data r) "latitude" PyNone.

Definition longitude_of (r : record) : pyval :=
  getattr (rec_event_data r) "longitude" PyNone.

(** The content of an element that holds the text [t] and nothing
    else. *)
Definition text_nodes (t : pystr) : list XML.node :=
  match t with [] => [] | _ => [XML.Text t] end.

Definition placemark_node (id desc coords : pystr) : XML.node :=
  XML.Elem (lit "Placemark") []
    [ XML.Elem (lit "name") [] (text_nodes (XML.normalize_eol id));
      XML.Elem (lit "description") []
        (text_nodes (XML.normalize_eol (desc ++ [10])));
      XML.Elem (lit "Point") []
        [ XML.Elem (lit "coordinates") []
            (text_nodes (XML.normalize_eol coords)) ] ].

(** The escaped form, character by character. *)
Definition escape_char (c : N) : pystr :=
  if c =? 38 then lit "&amp;"
  else if c =? 60 then lit "&lt;"
  else if c =? 62 then lit "&gt;"
  else ElementTree.xmlcharrefreplace c.

(** The tokens a reader finds in [element_text tag t]. *)
Definition element_tokens (tag t : pystr) : list XML.token :=
  match t with
  | [] => [XML.TEmpty tag []]
  | _ => [XML.TStart tag []; XML.TText (XML.normalize_eol t); XML.TEnd tag]
  end.

Definition placemark_tokens (id desc coords : pystr) : list XML.token :=
  XML.TStart (lit "Placemark") [] :: element_tokens (lit "name") id
  ++ element_tokens (lit "description") (desc ++ [10])
  ++ XML.TStart (lit "Point") [] :: element_tokens (lit "coordinates") coords
  ++ [XML.TEnd (lit "Point"); XML.TEnd (lit "Placemark")].

(** The three texts of a record, when its identifier converts and its
    description is formatted. *)
Definition record_texts (self : KMLOutputModule) (r : record)
  : option (pystr * pystr * pystr) :=
  match identifier_of r, description_of self r with
  | Ok id, Ok desc =>
      Some (id, desc, coordinates_text (latitude_of r) (longitude_of r))
  | _, _ => None
  end.

(** A record whose texts hold only characters that an XML document may
    contain. *)
Definition xml_record (self : KMLOutputModule) (r : record) : bool :=
  match record_texts self r with
  | Some (id, desc, coords) =>
      forallb XML.is_char id && forallb XML.is_char desc
      && forallb XML.is_char coords
  | None => false
  end.

Definition record_text (self : KMLOutputModule) (r : record) : pystr :=
  match record_texts self r with
  | Some (id, desc, coords) => placemark_text id desc coords
  | None => []
  end.

Definition record_node (self : KMLOutputModule) (r : record) : XML.node :=
  match record_texts self r with
  | Some (id, desc, coords) => placemark_node id desc coords
  | None => XML.Text []
  end.

Definition kml_document (placemarks : list XML.node) : XML.node :=
  XML.Elem (lit "kml") [(lit "xmlns", kml_namespace)]
    [XML.Elem (lit "Document") [] placemarks].

(** The text an element of a parsed fragment holds. *)
Definition recovered_text (fragment name : pystr) : option pystr :=
  match XML.parse_element fragment with
  | Some nd => XML.text_of <$> XML.child name nd
  | None => None
  end.

(** ** Classes of characters and tags used in the proofs *)

(** Characters of a reference other than its closing [;]. *)
Definition is_reference_char (c : N) : bool :=
  (XML.is_name_char c || (c =? 35)) && negb (c =? 59).

(** A tag name the reader knows: its start, end and empty-element tags
    are read as such. *)
Definition known_tag (tag : pystr) : Prop :=
  forallb XML.is_markup_char tag = true
  /\ XML.parse_markup tag = Some (XML.TStart tag [])
  /\ XML.parse_markup (tag ++ lit " /") = Some (XML.TEmpty tag [])
  /\ XML.parse_markup (47 :: tag) = Some (XML.TEnd tag).

(** The body of the XML declaration the header starts with. *)
Definition declaration_body (enc : pystr) : pystr :=
  lit "?xml version=" ++ 34 :: lit "1.0" ++ 34 :: lit " encoding=" ++ 34 ::
  enc ++ 34 :: lit "?".

Definition no_carriage_return (s : pystr) : bool :=
  forallb (fun c => negb (c =? 13)) s.

(** The texts of a list of records that all have texts. *)
Definition texts_of (self : KMLOutputModule) (rs : list record)
  : list (pystr * pystr * pystr) :=
  omap (record_texts self) rs.

(** ** Sample data *)

(** A formatting helper that returns the [message] attribute of the
    event data. *)
Definition message_helper : EventFormattingHelper :=
  mkHelper (fun _ event_data _ _ =>
              match getattr event_data "message" PyNone with
              | PyStr s => Ok s
              | _ => Raise TypeError
              end).

Definition sample_module (enc : pystr) : KMLOutputModule :=
  mkModule (mkMediator enc) message_helper.

Definition utf8_module : KMLOutputModule := sample_module (lit "utf-8").

(** A record with both coordinate attributes set. *)
Definition sample_record (id : outcome pystr) (latitude longitude : pyval)
  (message : pystr) : record :=
  mkRecord (mkEvent (Some (mkIdentifier id)) (mkContainer ∅))
    (mkContainer (<["latitude" := latitude]> (<["longitude" := longitude]>
       (<["message" := PyStr message]> ∅))))
    None None.

(** A record without coordinate attributes. *)
Definition record_without_coordinates (id : outcome pystr) (message : pystr)
  : record :=
  mkRecord (mkEvent (Some (mkIdentifier id)) (mkContainer ∅))
    (mkContainer (<["message" := PyStr message]> ∅)) None None.

Definition float_12_5 : pyval := PyFloat (S754_finite false 25 (-1)).
Definition float_minus_70_25 : pyval := PyFloat (S754_finite true 281 (-2)).
Definition float_37_42 : pyval :=
  PyFloat (S754_finite false 2633198407128187 (-46)).
Definition float_minus_122_08 : pyval :=
  PyFloat (S754_finite true 8590616289209221 (-46)).
Definition float_zero : pyval := PyFloat (S754_zero false).

(** The records of the end-to-end example: E1 with coordinates, E2
    without. *)
Definition example_records : list record :=
  [ sample_record (Ok (lit "E1")) float_37_42 float_minus_122_08 (lit "Home");
    sample_record (Ok (lit "E2")) PyNone PyNone (lit "NoGeo") ].

(** Texts with markup characters, quotes and characters outside
    ASCII. *)
Definition tricky_identifier : pystr := lit "E<1>&" ++ [233; 8364].
Definition tricky_description : pystr :=
  34 :: lit "it's" ++ 34 :: lit " <b>&amp;" ++ [26085; 128512].

Definition tricky_record : record :=
  sample_record (Ok tricky_identifier) float_12_5 float_minus_70_25
    tricky_description.

(** A description with the control character U+001B, and one with a
    carriage return. *)
Definition escape_record : record :=
  sample_record (Ok (lit "E1")) float_12_5 float_minus_70_25 [72; 27].

Definition carriage_return_record : record :=
  sample_record (Ok (lit "E1")) float_12_5 float_minus_70_25 [97; 13; 98].

(** A record whose identifier does not convert, and one without
    identifier. *)
Definition malformed_record : record :=
  sample_record (Raise (RuntimeError "malformed identifier")) float_12_5
    float_minus_70_25 (lit "Home").

Definition unidentified_record : record :=
  mkRecord (mkEvent None (mkContainer ∅))
    (rec_event_data (sample_record (Ok []) float_12_5 float_minus_70_25
                       (lit "Home")))
    None None.

(** A module configured with an encoding that is not ASCII-compatible,
    and a record whose fragment has an even number of bytes. *)
Definition utf16_module : KMLOutputModule := sample_module (lit "utf-16-le").

Definition utf16_record : record :=
  sample_record (Ok (lit "E12")) float_12_5 float_minus_70_25 (lit "Home").

Definition zero_record : record :=
  sample_record (Ok (lit "E0")) float_zero float_zero (lit "Null Island").

(** ** Further classes and sample data *)

(** ASCII letters, digits and the signs of a number: what [str] of a
    number or a boolean is made of. *)
Definition is_plain_char (c : N) : bool :=
  XML.is_letter c || XML.is_digit c || (c =? 43) || (c =? 45) || (c =? 46).

(** Integers, floats and booleans. *)
Definition is_numeric (v : pyval) : bool :=
  match v with
  | PyInt _ | PyFloat _ | PyBool _ => true
  | PyNone | PyStr _ => false
  end.

(** The exception an eligible record without texts ends with: that of
    the identifier if its conversion fails, else that of the formatting
    helper. *)
Definition record_error (self : KMLOutputModule) (r : record) : option exn :=
  match identifier_of r, description_of self r with
  | Raise e, _ => Some e
  | Ok _, Raise e => Some e
  | Ok _, Ok _ => None
  end.

(** The bytes [ElementTree.tostring] returns for a record, and what
    [codecs.decode] makes of them. *)
Definition decoded_fragment (codec_registry : codecs.registry)
  (self : KMLOutputModule) (id desc coords : pystr) : outcome pystr :=
  match codec_registry (encoding (_output_mediator self)) with
  | Some decoder => decoder (placemark_text id desc coords)
  | None => Raise LookupError
  end.

(** A record with coordinates and no [message] attribute, for which the
    sample formatting helper raises. *)
Definition record_without_message : record :=
  mkRecord (mkEvent (Some (mkIdentifier (Ok (lit "E3")))) (mkContainer ∅))
    (mkContainer (<["latitude" := float_12_5]>
       (<["longitude" := float_minus_70_25]> ∅)))
    None None.

(** A module configured with an encoding no codec is registered for. *)
Definition unknown_encoding_module : KMLOutputModule :=
  sample_module (lit "no-such-codec").

Definition empty_identifier_record : record :=
  sample_record (Ok []) float_12_5 float_minus_70_25 (lit "Home").



(** A record whose latitude is the string of the control character
    U+001B. *)
Definition control_coordinate_record : record :=
  sample_record (Ok (lit "E1")) (PyStr [27]) float_minus_70_25 (lit "Home").

(** A record with the coordinates 0.0 and 0.0 whose identifier does not
    convert. *)
Definition zero_malformed_record : record :=
  sample_record (Raise (RuntimeError "malformed identifier")) float_zero
    float_zero (lit "Null Island").

(** * Properties *)

(** ** Encoding and serialization *)

Ltac eval_lits :=
  repeat match goal with
  | |- context [lit ?s] =>
      let v := eval vm_compute in (lit s) in change (lit s) with v
  end.

Ltac list_norm :=
  repeat (rewrite <- ?app_assoc; cbn [app]).

Lemma encode_ascii_app (a b : pystr) :
  ElementTree.encode_ascii (a ++ b)
  = ElementTree.encode_ascii a ++ ElementTree.encode_ascii b.
Proof. unfold ElementTree.encode_ascii. apply flat_map_app. Qed.

Lemma encode_ascii_cons_ascii (c : N) (s : pystr) :
  is_ascii c = true ->
  ElementTree.encode_ascii (c :: s) = c :: ElementTree.encode_ascii s.
Proof.
  intros H. unfold ElementTree.encode_ascii. simpl.
  unfold ElementTree.xmlcharrefreplace. rewrite H. reflexivity.
Qed.

Lemma encode_ascii_id (s : pystr) :
  forallb is_ascii s = true -> ElementTree.encode_ascii s = s.
Proof.
  induction s as [|c s IH]; [reflexivity|].
  intros H. cbn [forallb] in H. apply andb_prop in H as [Hc Hs].
  rewrite encode_ascii_cons_ascii by exact Hc. by rewrite IH.
Qed.

Lemma serialize_placemark (id desc coords : pystr) :
  ElementTree._serialize_xml 5 (placemark_elements id desc coords) 0
  = Ok (lit "<Placemark>"
        ++ match id with
           | [] => lit "<name />"
           | _ => lit "<name>" ++ ElementTree._escape_cdata id ++ lit "</name>"
           end
        ++ lit "<description>" ++ ElementTree._escape_cdata (desc ++ [10])
        ++ lit "</description><Point>"
        ++ match coords with
           | [] => lit "<coordinates />"
           | _ => lit "<coordinates>" ++ ElementTree._escape_cdata coords
                  ++ lit "</coordinates>"
           end
        ++ lit "</Point></Placemark>").
Proof.
  unfold placemark_elements.
  destruct id, desc, coords; eval_lits; cbn -[ElementTree._escape_cdata];
    list_norm; try reflexivity.
Qed.

Lemma uint_chars_digits (u : Decimal.uint) :
  forallb XML.is_digit (uint_chars u) = true.
Proof. induction u; simpl; auto. Qed.

Lemma is_digit_ascii (c : N) : XML.is_digit c = true -> is_ascii c = true.
Proof.
  unfold XML.is_digit, is_ascii. intros [H1 H2]%andb_prop.
  apply N.leb_le in H2. apply N.ltb_lt. lia.
Qed.

Lemma forallb_impl (p q : N -> bool) (s : pystr) :
  (forall c, p c = true -> q c = true) ->
  forallb p s = true -> forallb q s = true.
Proof.
  intros Hpq. induction s as [|c s IH]; simpl; [done|].
  intros H. apply andb_prop in H as [Hc Hs]. rewrite (Hpq _ Hc). auto.
Qed.

Lemma xmlcharrefreplace_ascii (c : N) :
  forallb is_ascii (ElementTree.xmlcharrefreplace c) = true.
Proof.
  unfold ElementTree.xmlcharrefreplace.
  destruct (is_ascii c) eqn:E; simpl; [by rewrite E|].
  rewrite forallb_app. apply andb_true_intro. split; [|reflexivity].
  apply (forallb_impl XML.is_digit); [apply is_digit_ascii|].
  apply uint_chars_digits.
Qed.

Lemma encode_ascii_is_ascii (s : pystr) :
  forallb is_ascii (ElementTree.encode_ascii s) = true.
Proof.
  induction s as [|c s IH]; [reflexivity|].
  unfold ElementTree.encode_ascii in *. cbn [flat_map].
  rewrite forallb_app, xmlcharrefreplace_ascii. exact IH.
Qed.

Lemma encode_serialized_placemark (id desc coords : pystr) :
  ElementTree.encode_ascii
    (lit "<Placemark>"
        ++ match id with
           | [] => lit "<name />"
           | _ => lit "<name>" ++ ElementTree._escape_cdata id ++ lit "</name>"
           end
        ++ lit "<description>" ++ ElementTree._escape_cdata (desc ++ [10])
        ++ lit "</description><Point>"
        ++ match coords with
           | [] => lit "<coordinates />"
           | _ => lit "<coordinates>" ++ ElementTree._escape_cdata coords
                  ++ lit "</coordinates>"
           end
        ++ lit "</Point></Placemark>")
  = placemark_text id desc coords.
Proof.
  unfold placemark_text, element_text, escape_text.
  destruct id, desc, coords; rewrite ?encode_ascii_app;
    rewrite ?(encode_ascii_id (lit _)) by reflexivity;
    eval_lits; list_norm; reflexivity.
Qed.

Section Eligible.
Variable codec_registry : codecs.registry.

Lemma WriteEventBody_eligible (self : KMLOutputModule) (event : EventObject)
  (event_data : EventData) (event_data_stream : option EventDataStream)
  (event_tag : option EventTag) (st : state)
  (identifier : AttributeContainerIdentifier) (id desc : pystr)
  (decoder : bytes -> outcome pystr) :
  is_not_None (getattr event_data "latitude" PyNone)
  && is_not_None (getattr event_data "longitude" PyNone) = true ->
  GetIdentifier event = Some identifier ->
  CopyToString identifier = Ok id ->
  GetFormattedEvent (_event_formatting_helper self) event event_data
    event_data_stream event_tag = Ok desc ->
  codec_registry (encoding (_output_mediator self)) = Some decoder ->
  codecs.ascii_compatible decoder ->
  let coords :=
    coordinates_text (getattr event_data "latitude" PyNone)
      (getattr event_data "longitude" PyNone) in
  WriteEventBody codec_registry self event event_data event_data_stream
    event_tag st
  = (Ok tt,
     mkState (placemark_elements id desc coords)
       (output st ++ [placemark_text id desc coords])).
Proof.
  intros Hel Hid Hcopy Hdesc Hreg Hdec coords.
  unfold WriteEventBody. rewrite Hel.
  unfold bind, collect_elements, ElementTree.SubElement, ElementTree.Element,
    ElementTree.set_text, ret, bind, call, ElementTree.tostring, codecs.decode.
  cbn -[ElementTree._serialize_xml lit getattr py_str].
  rewrite Hid, Hcopy. cbn -[ElementTree._serialize_xml lit getattr py_str].
  rewrite Hdesc. cbn -[ElementTree._serialize_xml lit getattr py_str].
  match goal with
  | |- context [ElementTree._serialize_xml 5 ?l 0] =>
      change l with (placemark_elements id desc coords)
  end.
  rewrite serialize_placemark, Hreg. unfold call.
  rewrite (Hdec _ (encode_ascii_is_ascii _)), encode_serialized_placemark.
  reflexivity.
Qed.
End Eligible.


(** ** Reading escaped text *)

Lemma replace_app (old : N) (new a b : pystr) :
  ElementTree.replace old new (a ++ b)
  = ElementTree.replace old new a ++ ElementTree.replace old new b.
Proof. apply flat_map_app. Qed.

Lemma escape_text_app (a b : pystr) :
  escape_text (a ++ b) = escape_text a ++ escape_text b.
Proof.
  unfold escape_text, ElementTree._escape_cdata, ElementTree.encode_ascii.
  by rewrite !replace_app, flat_map_app.
Qed.

Lemma escape_text_single (c : N) : escape_text [c] = escape_char c.
Proof.
  unfold escape_text, ElementTree._escape_cdata, ElementTree.replace,
    escape_char.
  cbn [flat_map app].
  destruct (c =? 38) eqn:E38.
  - apply N.eqb_eq in E38. subst. reflexivity.
  - cbn [flat_map app]. destruct (c =? 60) eqn:E60.
    + apply N.eqb_eq in E60. subst. reflexivity.
    + cbn [flat_map app]. destruct (c =? 62) eqn:E62.
      * apply N.eqb_eq in E62. subst. reflexivity.
      * unfold ElementTree.encode_ascii. cbn [flat_map].
        apply app_nil_r.
Qed.

Lemma escape_text_flat_map (s : pystr) :
  escape_text s = flat_map escape_char s.
Proof.
  induction s as [|c s IH]; [reflexivity|].
  change (c :: s) with ([c] ++ s).
  rewrite escape_text_app, escape_text_single, IH. reflexivity.
Qed.

Lemma chars_uint_chars (u : Decimal.uint) :
  XML.chars_uint (uint_chars u) = Some u.
Proof. induction u; simpl; rewrite ?IHu; reflexivity. Qed.

Lemma uint_chars_nonempty (n : N) : N_to_pystr n <> [].
Proof.
  unfold N_to_pystr. destruct n as [|p]; [discriminate|].
  simpl. pose proof (DecimalPos.Unsigned.to_uint_nonnil p) as H.
  destruct (Pos.to_uint p); [congruence| discriminate..].
Qed.

Lemma parse_decimal_N_to_pystr (n : N) :
  XML.parse_decimal (N_to_pystr n) = Some n.
Proof.
  unfold XML.parse_decimal.
  pose proof (uint_chars_nonempty n) as Hne.
  destruct (N_to_pystr n) eqn:E; [congruence|].
  rewrite <- E. unfold N_to_pystr. rewrite chars_uint_chars. simpl.
  by rewrite DecimalN.Unsigned.of_to.
Qed.



Lemma lex_reference_chars (ds : pystr) :
  forallb is_reference_char ds = true ->
  forall txt ref toks rest,
    XML.lex (XML.Reference txt ref) toks (ds ++ rest)
    = XML.lex (XML.Reference txt (rev ds ++ ref)) toks rest.
Proof.
  induction ds as [|d ds IH]; [reflexivity|].
  intros H txt ref toks rest. cbn [forallb] in H.
  apply andb_prop in H as [Hd Hds].
  unfold is_reference_char in Hd. apply andb_prop in Hd as [Hn H59].
  cbn [app XML.lex]. apply negb_true_iff in H59. rewrite H59, Hn.
  rewrite IH by exact Hds. cbn [rev]. by rewrite <- app_assoc.
Qed.

Lemma is_digit_reference_char (c : N) :
  XML.is_digit c = true -> is_reference_char c = true.
Proof.
  unfold is_reference_char, XML.is_name_char. intros H. rewrite H.
  rewrite orb_true_r. cbn [orb andb].
  unfold XML.is_digit in H. apply andb_prop in H as [H1 H2].
  apply N.leb_le in H2. apply negb_true_iff, N.eqb_neq. lia.
Qed.

Lemma decode_reference_decimal (c : N) :
  XML.is_char c = true ->
  XML.decode_reference (35 :: N_to_pystr c) = Some c.
Proof.
  intros Hc. unfold XML.decode_reference.
  change (XML.pystr_eqb (35 :: N_to_pystr c) (lit "amp")) with false.
  change (XML.pystr_eqb (35 :: N_to_pystr c) (lit "lt")) with false.
  change (XML.pystr_eqb (35 :: N_to_pystr c) (lit "gt")) with false.
  change (XML.pystr_eqb (35 :: N_to_pystr c) (lit "quot")) with false.
  change (XML.pystr_eqb (35 :: N_to_pystr c) (lit "apos")) with false.
  cbv iota.
  pose proof (parse_decimal_N_to_pystr c) as Hp.
  pose proof (uint_chars_digits (N.to_uint c)) as Hd.
  fold (N_to_pystr c) in Hd.
  destruct (N_to_pystr c) as [|x h]; [discriminate|].
  cbn [forallb] in Hd. apply andb_prop in Hd as [Hx _].
  assert ((x =? 120) = false) as ->.
  { unfold XML.is_digit in Hx. apply andb_prop in Hx as [H1 H2].
    apply N.leb_le in H2. apply N.eqb_neq. lia. }
  rewrite Hp, Hc. reflexivity.
Qed.

(** A character reference is read as the character it names. *)
Lemma lex_character_reference (c : N) (txt : pystr) (cr : bool)
  (toks : list XML.token) (rest : pystr) :
  XML.is_char c = true ->
  XML.lex (XML.Content txt cr) toks
    (lit "&#" ++ N_to_pystr c ++ lit ";" ++ rest)
  = XML.lex (XML.Content (c :: txt) false) toks rest.
Proof.
  intros Hc. eval_lits. cbn [app XML.lex]. cbn.
  rewrite lex_reference_chars.
  2:{ apply (forallb_impl XML.is_digit); [apply is_digit_reference_char|].
      apply uint_chars_digits. }
  cbn [XML.lex]. cbn [N.eqb Pos.eqb].
  rewrite rev_app_distr, rev_involutive. cbn [rev app].
  rewrite decode_reference_decimal by exact Hc. reflexivity.
Qed.

Lemma normalize_from_cons (cr : bool) (c : N) (s : pystr) :
  XML.normalize_from cr (c :: s)
  = if c =? 13 then 10 :: XML.normalize_from true s
    else if (c =? 10) && cr then XML.normalize_from false s
    else c :: XML.normalize_from false s.
Proof. reflexivity. Qed.

Lemma rev_cons_app (c : N) (a b : pystr) : rev (c :: a) ++ b = rev a ++ c :: b.
Proof. cbn [rev]. by rewrite <- app_assoc. Qed.

Lemma lex_entity (txt : pystr) (cr : bool) (toks : list XML.token)
  (rest : pystr) :
  XML.lex (XML.Content txt cr) toks (lit "&amp;" ++ rest)
  = XML.lex (XML.Content (38 :: txt) false) toks rest
  /\ XML.lex (XML.Content txt cr) toks (lit "&lt;" ++ rest)
     = XML.lex (XML.Content (60 :: txt) false) toks rest
  /\ XML.lex (XML.Content txt cr) toks (lit "&gt;" ++ rest)
     = XML.lex (XML.Content (62 :: txt) false) toks rest.
Proof. repeat split; reflexivity. Qed.

(** Reading escaped text up to the next tag gives the text back, with
    its ends of line normalized. *)
Lemma lex_escaped (s : pystr) :
  forallb XML.is_char s = true ->
  forall txt cr toks rest,
    XML.lex (XML.Content txt cr) toks (flat_map escape_char s ++ 60 :: rest)
    = XML.lex (XML.Markup [])
        (XML.flush (rev (XML.normalize_from cr s) ++ txt) toks) rest.
Proof.
  induction s as [|c s IH]; [reflexivity|].
  intros H txt cr toks rest. cbn [forallb] in H.
  apply andb_prop in H as [Hc Hs].
  cbn [flat_map]. rewrite <- app_assoc.
  destruct (lex_entity txt cr toks (flat_map escape_char s ++ 60 :: rest))
    as (Lamp & Llt & Lgt).
  unfold escape_char at 1.
  destruct (c =? 38) eqn:E38.
  { apply N.eqb_eq in E38. subst c.
    change (XML.normalize_from cr (38 :: s))
      with (38 :: XML.normalize_from false s).
    rewrite Lamp, (IH Hs), rev_cons_app. reflexivity. }
  destruct (c =? 60) eqn:E60.
  { apply N.eqb_eq in E60. subst c.
    change (XML.normalize_from cr (60 :: s))
      with (60 :: XML.normalize_from false s).
    rewrite Llt, (IH Hs), rev_cons_app. reflexivity. }
  destruct (c =? 62) eqn:E62.
  { apply N.eqb_eq in E62. subst c.
    change (XML.normalize_from cr (62 :: s))
      with (62 :: XML.normalize_from false s).
    rewrite Lgt, (IH Hs), rev_cons_app. reflexivity. }
  clear Lamp Llt Lgt. rewrite normalize_from_cons.
  unfold ElementTree.xmlcharrefreplace.
  destruct (is_ascii c) eqn:Ea.
  - cbn [app XML.lex]. rewrite E60, E38.
    destruct (c =? 13) eqn:E13.
    { rewrite (IH Hs). rewrite rev_cons_app. reflexivity. }
    destruct ((c =? 10) && cr) eqn:E10.
    { rewrite (IH Hs). reflexivity. }
    rewrite E62, Hc. cbn [andb]. rewrite (IH Hs), rev_cons_app. reflexivity.
  - assert ((c =? 13) = false) as ->.
    { unfold is_ascii in Ea. apply N.ltb_ge in Ea. apply N.eqb_neq. lia. }
    assert ((c =? 10) = false) as ->.
    { unfold is_ascii in Ea. apply N.ltb_ge in Ea. apply N.eqb_neq. lia. }
    cbn [andb]. rewrite <- !app_assoc.
    rewrite lex_character_reference by exact Hc.
    rewrite (IH Hs), rev_cons_app. reflexivity.
Qed.

Lemma lex_markup_chars (body : pystr) :
  forallb XML.is_markup_char body = true ->
  forall acc toks rest,
    XML.lex (XML.Markup acc) toks (body ++ rest)
    = XML.lex (XML.Markup (rev body ++ acc)) toks rest.
Proof.
  induction body as [|c body IH]; [reflexivity|].
  intros H acc toks rest. cbn [forallb] in H.
  apply andb_prop in H as [Hc Hb].
  cbn [app XML.lex]. rewrite Hc.
  assert ((c =? 62) = false) as ->.
  { unfold XML.is_markup_char in Hc.
    apply andb_prop in Hc as [[_ Hc]%andb_prop _].
    by apply negb_true_iff in Hc. }
  rewrite (IH Hb), rev_cons_app. reflexivity.
Qed.

(** A tag is read as the token its body stands for. *)
Lemma lex_tag (body : pystr) (t : XML.token) (toks : list XML.token)
  (rest : pystr) :
  forallb XML.is_markup_char body = true ->
  XML.parse_markup body = Some t ->
  XML.lex (XML.Markup []) toks (body ++ 62 :: rest)
  = XML.lex (XML.Content [] false) (t :: toks) rest.
Proof.
  intros Hb Hp. rewrite (lex_markup_chars body Hb).
  cbn [XML.lex]. rewrite app_nil_r, rev_involutive, Hp. reflexivity.
Qed.

Lemma lex_open_tag (body : pystr) (t : XML.token) (toks : list XML.token)
  (rest : pystr) :
  forallb XML.is_markup_char body = true ->
  XML.parse_markup body = Some t ->
  XML.lex (XML.Content [] false) toks (60 :: body ++ 62 :: rest)
  = XML.lex (XML.Content [] false) (t :: toks) rest.
Proof. intros Hb Hp. cbn [XML.lex]. by apply lex_tag. Qed.

Lemma normalize_from_nonempty (c : N) (s : pystr) :
  XML.normalize_from false (c :: s) <> [].
Proof.
  rewrite normalize_from_cons, andb_false_r. by destruct (c =? 13).
Qed.

Lemma lex_element (tag t : pystr) (toks : list XML.token) (rest : pystr) :
  known_tag tag ->
  forallb XML.is_char t = true ->
  XML.lex (XML.Content [] false) toks (element_text tag t ++ rest)
  = XML.lex (XML.Content [] false) (rev (element_tokens tag t) ++ toks) rest.
Proof.
  intros (Hm & Hs & He & Hc) Ht. unfold element_text, element_tokens.
  destruct t as [|c t].
  - replace ((60 :: tag ++ lit " />") ++ rest)
      with (60 :: (tag ++ lit " /") ++ 62 :: rest)
      by (cbn [app]; by rewrite <- !app_assoc).
    rewrite (lex_open_tag _ (XML.TEmpty tag [])); [reflexivity| |exact He].
    rewrite forallb_app, Hm. reflexivity.
  - replace ((60 :: tag ++ 62 :: escape_text (c :: t) ++ lit "</" ++ tag ++ [62])
             ++ rest)
      with (60 :: tag ++ 62 :: flat_map escape_char (c :: t)
              ++ 60 :: (47 :: tag) ++ 62 :: rest).
    2:{ rewrite escape_text_flat_map. cbn [app]. rewrite <- !app_assoc.
        cbn [app]. do 2 f_equal. rewrite <- !app_assoc. reflexivity. }
    rewrite (lex_open_tag _ _ _ _ Hm Hs), (lex_escaped _ Ht).
    rewrite app_nil_r, (lex_tag (47 :: tag) (XML.TEnd tag)); [|by cbn [forallb]; rewrite Hm|exact Hc].
    unfold XML.flush, XML.normalize_eol.
    pose proof (normalize_from_nonempty c t) as Hne.
    destruct (rev (XML.normalize_from false (c :: t))) eqn:E.
    { apply (f_equal (@rev N)) in E. rewrite rev_involutive in E. done. }
    rewrite <- E, rev_involutive. reflexivity.
Qed.

Lemma known_tags :
  known_tag (lit "name") /\ known_tag (lit "description")
  /\ known_tag (lit "coordinates").
Proof. repeat split; reflexivity. Qed.

Lemma forallb_is_char_app_newline (desc : pystr) :
  forallb XML.is_char desc = true ->
  forallb XML.is_char (desc ++ [10]) = true.
Proof. intros H. rewrite forallb_app, H. reflexivity. Qed.

(** Reading a placemark fragment. *)
Lemma lex_placemark (id desc coords : pystr) (toks : list XML.token)
  (rest : pystr) :
  forallb XML.is_char id = true ->
  forallb XML.is_char desc = true ->
  forallb XML.is_char coords = true ->
  XML.lex (XML.Content [] false) toks (placemark_text id desc coords ++ rest)
  = XML.lex (XML.Content [] false)
      (rev (placemark_tokens id desc coords) ++ toks) rest.
Proof.
  intros Hid Hdesc Hcoords.
  destruct known_tags as (Kn & Kd & Kc).
  unfold placemark_text, placemark_tokens.
  rewrite <- !app_assoc.
  change (lit "<Placemark>" ++ ?x) with (60 :: lit "Placemark" ++ 62 :: x).
  rewrite (lex_open_tag _ (XML.TStart (lit "Placemark") []))
    by reflexivity.
  rewrite (lex_element _ _ _ _ Kn Hid).
  rewrite (lex_element _ _ _ _ Kd (forallb_is_char_app_newline _ Hdesc)).
  change (lit "<Point>" ++ ?x) with (60 :: lit "Point" ++ 62 :: x).
  rewrite (lex_open_tag _ (XML.TStart (lit "Point") [])) by reflexivity.
  rewrite (lex_element _ _ _ _ Kc Hcoords).
  change (lit "</Point></Placemark>" ++ rest)
    with (60 :: lit "/Point" ++ 62 :: 60 :: lit "/Placemark" ++ 62 :: rest).
  rewrite (lex_open_tag _ (XML.TEnd (lit "Point"))) by reflexivity.
  rewrite (lex_open_tag _ (XML.TEnd (lit "Placemark"))) by reflexivity.
  f_equal.
  repeat (progress cbn [rev app] || rewrite rev_app_distr
          || rewrite <- app_assoc).
  reflexivity.
Qed.


(** ** Reading tags and the header *)

Lemma span_app (p : N -> bool) (a : pystr) (x : N) (r : pystr) :
  forallb p a = true -> p x = false ->
  XML.span p (a ++ x :: r) = (a, x :: r).
Proof.
  intros Ha Hx. induction a as [|c a IH]; cbn [app XML.span].
  - by rewrite Hx.
  - cbn [forallb] in Ha. apply andb_prop in Ha as [Hc Ha].
    rewrite Hc, (IH Ha). reflexivity.
Qed.

Lemma is_enc_char_markup (c : N) :
  XML.is_enc_char c = true -> XML.is_markup_char c = true.
Proof.
  unfold XML.is_enc_char, XML.is_markup_char, XML.is_char, XML.is_letter,
    XML.is_digit.
  rewrite !andb_true_iff, !orb_true_iff, !andb_true_iff, !negb_true_iff,
    !N.leb_le, !N.eqb_eq, !N.eqb_neq.
  lia.
Qed.

Lemma is_enc_name_chars (enc : pystr) :
  XML.is_enc_name enc = true -> forallb XML.is_enc_char enc = true.
Proof.
  destruct enc as [|c enc]; [discriminate|].
  unfold XML.is_enc_name. by intros [_ H]%andb_prop.
Qed.

Lemma parse_declaration_body (enc : pystr) :
  XML.is_enc_name enc = true ->
  XML.parse_markup (declaration_body enc) = Some (XML.TDecl (lit "1.0") enc).
Proof.
  intros He. unfold declaration_body. eval_lits.
  cbn [app XML.parse_markup]. unfold XML.parse_declaration. eval_lits.
  cbn [app XML.strip_prefix N.eqb Pos.eqb].
  rewrite (span_app XML.is_enc_char enc 34 [63])
    by (try apply is_enc_name_chars; done).
  rewrite He. reflexivity.
Qed.

Lemma declaration_body_markup (enc : pystr) :
  XML.is_enc_name enc = true ->
  forallb XML.is_markup_char (declaration_body enc) = true.
Proof.
  intros He. unfold declaration_body.
  change (lit "?xml version=" ++ 34 :: lit "1.0" ++ 34 :: lit " encoding="
          ++ 34 :: enc ++ 34 :: lit "?")
    with ((lit "?xml version=" ++ 34 :: lit "1.0" ++ 34 :: lit " encoding="
           ++ [34]) ++ enc ++ 34 :: lit "?").
  rewrite !forallb_app.
  rewrite (forallb_impl _ _ enc is_enc_char_markup (is_enc_name_chars _ He)).
  reflexivity.
Qed.

Lemma lex_header (enc rest : pystr) :
  XML.is_enc_name enc = true ->
  XML.lex (XML.Content [] false) [] (header_text enc ++ rest)
  = XML.lex (XML.Content [] false)
      [ XML.TStart (lit "Document") [];
        XML.TStart (lit "kml") [(lit "xmlns", kml_namespace)];
        XML.TDecl (lit "1.0") enc ] rest.
Proof.
  intros He.
  replace (header_text enc ++ rest)
    with (60 :: declaration_body enc ++ 62 ::
          60 :: (lit "kml xmlns=" ++ 34 :: kml_namespace ++ [34]) ++ 62 ::
          60 :: lit "Document" ++ 62 :: rest).
  2:{ unfold header_text, xml_declaration, declaration_body.
      eval_lits. cbn [app]. repeat (rewrite <- ?app_assoc; cbn [app]).
      reflexivity. }
  rewrite (lex_open_tag _ _ _ _ (declaration_body_markup _ He)
             (parse_declaration_body _ He)).
  rewrite (lex_open_tag _
             (XML.TStart (lit "kml") [(lit "xmlns", kml_namespace)]))
    by reflexivity.
  rewrite (lex_open_tag _ (XML.TStart (lit "Document") [])) by reflexivity.
  reflexivity.
Qed.


(** ** Building the tree *)

Lemma pystr_eqb_refl (s : pystr) : XML.pystr_eqb s s = true.
Proof. induction s as [|c s IH]; [reflexivity|]. simpl. by rewrite N.eqb_refl. Qed.

Lemma text_nodes_normalize_cons (c : N) (t : pystr) :
  text_nodes (XML.normalize_eol (c :: t))
  = [XML.Text (XML.normalize_eol (c :: t))].
Proof.
  unfold XML.normalize_eol. pose proof (normalize_from_nonempty c t) as H.
  by destruct (XML.normalize_from false (c :: t)).
Qed.

Lemma build_element (tag t : pystr) (toks : list XML.token) (n : pystr)
  (a : list (pystr * pystr)) (ch : list XML.node) (stack : list XML.frame)
  (root : option XML.node) :
  XML.build (element_tokens tag t ++ toks) ((n, a, ch) :: stack) root
  = XML.build toks
      ((n, a, XML.Elem tag [] (text_nodes (XML.normalize_eol t)) :: ch)
         :: stack) root.
Proof.
  destruct t as [|c t]; [reflexivity|].
  rewrite text_nodes_normalize_cons.
  cbn [element_tokens app XML.build XML.add_node rev].
  rewrite pystr_eqb_refl. reflexivity.
Qed.

Lemma build_placemark (id desc coords : pystr) (toks : list XML.token)
  (n : pystr) (a : list (pystr * pystr)) (ch : list XML.node)
  (stack : list XML.frame) (root : option XML.node) :
  XML.build (placemark_tokens id desc coords ++ toks) ((n, a, ch) :: stack)
    root
  = XML.build toks ((n, a, placemark_node id desc coords :: ch) :: stack)
      root.
Proof.
  unfold placemark_tokens. cbn [app XML.build].
  rewrite <- !app_assoc, !build_element. cbn [app XML.build].
  rewrite <- !app_assoc, !build_element. cbn [app XML.build XML.add_node].
  rewrite !pystr_eqb_refl. reflexivity.
Qed.

Lemma lex_placemarks (texts : list (pystr * pystr * pystr))
  (toks : list XML.token) (rest : pystr) :
  Forall (fun '(id, desc, coords) =>
            forallb XML.is_char id = true /\ forallb XML.is_char desc = true
            /\ forallb XML.is_char coords = true) texts ->
  XML.lex (XML.Content [] false) toks
    (concat (map (fun '(id, desc, coords) => placemark_text id desc coords)
               texts) ++ rest)
  = XML.lex (XML.Content [] false)
      (rev (flat_map (fun '(id, desc, coords) =>
                        placemark_tokens id desc coords) texts) ++ toks) rest.
Proof.
  intros H. revert toks. induction H as [|[[id desc] coords] texts Hx _ IH];
    intros toks; [reflexivity|].
  destruct Hx as (Hid & Hdesc & Hcoords).
  cbn [map concat flat_map]. rewrite <- app_assoc.
  rewrite (lex_placemark _ _ _ _ _ Hid Hdesc Hcoords), IH.
  by rewrite rev_app_distr, <- app_assoc.
Qed.

Lemma build_placemarks (texts : list (pystr * pystr * pystr))
  (toks : list XML.token) (n : pystr) (a : list (pystr * pystr))
  (ch : list XML.node) (stack : list XML.frame) (root : option XML.node) :
  XML.build
    (flat_map (fun '(id, desc, coords) => placemark_tokens id desc coords)
       texts ++ toks) ((n, a, ch) :: stack) root
  = XML.build toks
      ((n, a,
        rev (map (fun '(id, desc, coords) => placemark_node id desc coords)
               texts) ++ ch) :: stack) root.
Proof.
  revert ch. induction texts as [|[[id desc] coords] texts IH]; intros ch;
    [reflexivity|].
  cbn [flat_map map rev]. rewrite <- !app_assoc, build_placemark, IH.
  reflexivity.
Qed.

(** A document of placemarks reads back as the tree of its placemarks. *)
Lemma parse_kml_document (enc : pystr)
  (texts : list (pystr * pystr * pystr)) :
  XML.is_enc_name enc = true ->
  Forall (fun '(id, desc, coords) =>
            forallb XML.is_char id = true /\ forallb XML.is_char desc = true
            /\ forallb XML.is_char coords = true) texts ->
  XML.parse_document
    (header_text enc
     ++ concat (map (fun '(id, desc, coords) => placemark_text id desc coords)
                  texts)
     ++ footer_text)
  = Some (kml_document
            (map (fun '(id, desc, coords) => placemark_node id desc coords)
               texts)).
Proof.
  intros He Ht. unfold XML.parse_document.
  rewrite (lex_header _ _ He), (lex_placemarks _ _ _ Ht).
  change footer_text
    with (60 :: lit "/Document" ++ 62 :: 60 :: lit "/kml" ++ 62 :: []).
  rewrite (lex_open_tag _ (XML.TEnd (lit "Document"))) by reflexivity.
  rewrite (lex_open_tag _ (XML.TEnd (lit "kml"))) by reflexivity.
  cbn [XML.lex XML.flush rev app].
  repeat (progress cbn [rev app] || rewrite rev_app_distr
          || rewrite <- app_assoc || rewrite rev_involutive).
  cbn [XML.build].
  rewrite build_placemarks. cbn [XML.build XML.add_node].
  rewrite !pystr_eqb_refl. cbn [XML.build XML.add_node].
  rewrite app_nil_r, rev_involutive. reflexivity.
Qed.


(** ** Runs of the module *)

Lemma utf_8_ascii_compatible : codecs.ascii_compatible codecs.utf_8_decode.
Proof.
  intros bs. induction bs as [|b bs IH]; [reflexivity|].
  cbn [forallb]. intros [Hb Hbs]%andb_prop.
  cbn [codecs.utf_8_decode]. unfold is_ascii in Hb. rewrite Hb, (IH Hbs).
  reflexivity.
Qed.

Lemma ascii_ascii_compatible : codecs.ascii_compatible codecs.ascii_decode.
Proof. intros bs H. unfold codecs.ascii_decode. by rewrite H. Qed.

Lemma latin_1_ascii_compatible : codecs.ascii_compatible codecs.latin_1_decode.
Proof. intros bs H. reflexivity. Qed.

Lemma normalize_no_carriage_return (s : pystr) :
  no_carriage_return s = true -> XML.normalize_eol s = s.
Proof.
  unfold XML.normalize_eol, no_carriage_return.
  induction s as [|c s IH]; [reflexivity|].
  cbn [forallb]. intros [Hc Hs]%andb_prop.
  rewrite normalize_from_cons, andb_false_r.
  apply negb_true_iff in Hc. rewrite Hc, (IH Hs). reflexivity.
Qed.

Lemma text_of_text_nodes (name : pystr) (attrs : list (pystr * pystr))
  (t : pystr) :
  XML.text_of (XML.Elem name attrs (text_nodes t)) = t.
Proof. destruct t; [reflexivity|]. cbn. by rewrite app_nil_r. Qed.

(** A placemark fragment reads back as the tree of the placemark. *)
Lemma parse_placemark (id desc coords : pystr) :
  forallb XML.is_char id = true ->
  forallb XML.is_char desc = true ->
  forallb XML.is_char coords = true ->
  XML.parse_element (placemark_text id desc coords)
  = Some (placemark_node id desc coords).
Proof.
  intros Hid Hdesc Hcoords. unfold XML.parse_element.
  rewrite <- (app_nil_r (placemark_text id desc coords)).
  rewrite (lex_placemark _ _ _ _ _ Hid Hdesc Hcoords).
  cbn [XML.lex XML.flush]. rewrite app_nil_r, rev_involutive.
  unfold placemark_tokens. cbn [app XML.build].
  rewrite !build_element. cbn [app XML.build].
  rewrite !build_element. cbn [app XML.build XML.add_node].
  rewrite !pystr_eqb_refl. reflexivity.
Qed.

Section Runs.

Variable codec_registry : codecs.registry.

Lemma WriteEventBody_ineligible (self : KMLOutputModule) (event : EventObject)
  (event_data : EventData) (event_data_stream : option EventDataStream)
  (event_tag : option EventTag) (st : state) :
  is_not_None (getattr event_data "latitude" PyNone)
  && is_not_None (getattr event_data "longitude" PyNone) = false ->
  WriteEventBody codec_registry self event event_data event_data_stream
    event_tag st = (Ok tt, st).
Proof. intros H. unfold WriteEventBody. rewrite H. reflexivity. Qed.

Lemma identifier_of_Ok (r : record) (id : pystr) :
  identifier_of r = Ok id ->
  exists identifier,
    GetIdentifier (rec_event r) = Some identifier
    /\ CopyToString identifier = Ok id.
Proof.
  unfold identifier_of. destruct (GetIdentifier (rec_event r)) as [i|];
    [|discriminate].
  intros H. by exists i.
Qed.

Lemma record_texts_Some (self : KMLOutputModule) (r : record)
  (id desc coords : pystr) :
  record_texts self r = Some (id, desc, coords) ->
  identifier_of r = Ok id /\ description_of self r = Ok desc
  /\ coords = coordinates_text (latitude_of r) (longitude_of r).
Proof.
  unfold record_texts.
  destruct (identifier_of r); [|discriminate].
  destruct (description_of self r); [|discriminate].
  intros [= -> -> <-]. done.
Qed.

Lemma perform_eligible (self : KMLOutputModule) (r : record) (st : state)
  (decoder : bytes -> outcome pystr) (id desc coords : pystr) :
  codec_registry (encoding (_output_mediator self)) = Some decoder ->
  codecs.ascii_compatible decoder ->
  eligible r = true ->
  record_texts self r = Some (id, desc, coords) ->
  perform codec_registry self (CallWriteEventBody r) st
  = (Ok tt,
     mkState (placemark_elements id desc coords)
       (output st ++ [placemark_text id desc coords])).
Proof.
  intros Hreg Hdec Hel Ht.
  apply record_texts_Some in Ht as (Hid & Hdesc & ->).
  apply identifier_of_Ok in Hid as (identifier & Hget & Hcopy).
  cbn [perform].
  exact (WriteEventBody_eligible codec_registry self _ _ _ _ st identifier
           id desc decoder Hel Hget Hcopy Hdesc Hreg Hdec).
Qed.

Lemma perform_ineligible (self : KMLOutputModule) (r : record) (st : state) :
  eligible r = false ->
  perform codec_registry self (CallWriteEventBody r) st = (Ok tt, st).
Proof. intros H. by apply WriteEventBody_ineligible. Qed.

Lemma xml_record_texts (self : KMLOutputModule) (r : record) :
  xml_record self r = true ->
  exists id desc coords,
    record_texts self r = Some (id, desc, coords)
    /\ forallb XML.is_char id = true /\ forallb XML.is_char desc = true
    /\ forallb XML.is_char coords = true.
Proof.
  unfold xml_record, record_text, record_node.
  destruct (record_texts self r) as [[[id desc] coords]|]; [|discriminate].
  intros [[H1 H2]%andb_prop H3]%andb_prop. by exists id, desc, coords.
Qed.

(** The calls of [WriteEventBody] for a list of records write the
    fragments of the eligible ones, in order. *)
Lemma perform_records (self : KMLOutputModule)
  (decoder : bytes -> outcome pystr) (rs : list record)
  (cs : list method_call) :
  codec_registry (encoding (_output_mediator self)) = Some decoder ->
  codecs.ascii_compatible decoder ->
  Forall (fun r => xml_record self r = true) (List.filter eligible rs) ->
  forall st, exists els,
    perform_all codec_registry self (map CallWriteEventBody rs ++ cs) st
    = perform_all codec_registry self cs
        (mkState els
           (output st ++ map (record_text self) (List.filter eligible rs))).
Proof.
  intros Hreg Hdec. induction rs as [|r rs IH]; intros Hrs st.
  - exists (elements st). cbn. rewrite app_nil_r. by destruct st.
  - cbn [map app perform_all List.filter] in *. unfold bind.
    destruct (eligible r) eqn:Hel.
    + apply Forall_cons in Hrs as [Hr Hrs].
      destruct (xml_record_texts _ _ Hr) as (id & desc & coords & Ht & _).
      rewrite (perform_eligible self r st decoder id desc coords Hreg Hdec
                 Hel Ht).
      destruct (IH Hrs (mkState (placemark_elements id desc coords)
                          (output st ++ [placemark_text id desc coords])))
        as [els ->].
      exists els. cbn [output map]. unfold record_text at 2. rewrite Ht.
      by rewrite <- app_assoc.
    + rewrite (perform_ineligible self r st Hel). exact (IH Hrs st).
Qed.

Lemma record_texts_filter (self : KMLOutputModule) (rs : list record) :
  Forall (fun r => xml_record self r = true) rs ->
  map (record_text self) rs
  = map (fun '(id, desc, coords) => placemark_text id desc coords)
      (texts_of self rs)
  /\ map (record_node self) rs
     = map (fun '(id, desc, coords) => placemark_node id desc coords)
         (texts_of self rs)
  /\ Forall (fun '(id, desc, coords) =>
               forallb XML.is_char id = true
               /\ forallb XML.is_char desc = true
               /\ forallb XML.is_char coords = true) (texts_of self rs).
Proof.
  induction 1 as [|r rs Hr _ (IH1 & IH2 & IH3)]; [done|].
  destruct (xml_record_texts _ _ Hr) as (id & desc & coords & Ht & Hc).
  unfold texts_of in *. cbn [map omap list_omap].
  unfold record_text at 1, record_node at 1.
  rewrite Ht. cbn [map]. rewrite IH1, IH2. repeat split. by constructor.
Qed.

End Runs.


(** ** The specified properties *)

Lemma WriteHeader_text (self : KMLOutputModule) (st : state) :
  WriteHeader self st
  = (Ok tt,
     mkState (elements st)
       (output st ++ [header_text (encoding (_output_mediator self))])).
Proof.
  unfold WriteHeader, WriteText, header_text, xml_declaration, kml_namespace.
  do 4 f_equal. eval_lits. list_norm. reflexivity.
Qed.

Lemma example_records_xml :
  Forall (fun r => xml_record utf8_module r = true)
    (List.filter eligible example_records).
Proof. repeat constructor. Qed.

Lemma utf_16_le_not_ascii_compatible :
  ~ codecs.ascii_compatible codecs.utf_16_le_decode.
Proof. intros H. specialize (H [60] eq_refl). discriminate. Qed.

Section Claims.

Variable codec_registry : codecs.registry.

(** C1 (amended): when the configured encoding is an ASCII-compatible
    codec whose name is a legal XML encoding name, and every eligible
    record of the sequence has an identifier that converts to a string, a
    formatted description, and identifier, description and coordinate
    texts made only of characters that XML 1.0 allows, then [WriteHeader],
    [WriteEventBody] for each record in order and [WriteFooter] all return
    normally, and the text they write reads back as one XML document: a
    root [kml] with the KML 2.2 namespace holding one [Document], whose
    children are the placemarks of the eligible records, one for each, in
    input order (none for an empty sequence or one without eligible
    record). *)
Theorem write_document_well_formed (self : KMLOutputModule)
  (records : list record) (st : state) (decoder : bytes -> outcome pystr) :
  codec_registry (encoding (_output_mediator self)) = Some decoder ->
  codecs.ascii_compatible decoder ->
  XML.is_enc_name (encoding (_output_mediator self)) = true ->
  Forall (fun r => xml_record self r = true) (List.filter eligible records) ->
  let written :=
    header_text (encoding (_output_mediator self))
    :: map (record_text self) (List.filter eligible records)
    ++ [footer_text] in
  exists st',
    write_document codec_registry self records st = (Ok tt, st')
    /\ output st' = output st ++ written
    /\ XML.parse_document (concat written)
       = Some (kml_document
                 (map (record_node self) (List.filter eligible records))).
Proof.
  intros Hreg Hdec Henc Hrs written.
  unfold write_document. cbn [perform_all perform]. unfold bind at 1.
  rewrite WriteHeader_text.
  destruct (perform_records codec_registry self decoder records
              [CallWriteFooter] Hreg Hdec Hrs
              (mkState (elements st)
                 (output st ++ [header_text (encoding (_output_mediator self))])))
    as [els ->].
  eexists. split; [reflexivity|]. cbn [output]. split.
  - unfold written. rewrite <- !app_assoc. reflexivity.
  - unfold written. cbn [concat]. rewrite concat_app. cbn [concat].
    rewrite app_nil_r.
    destruct (record_texts_filter self _ Hrs) as (-> & -> & Hchars).
    by apply parse_kml_document.
Qed.

(** C2: when the latitude or the longitude of the event data is absent
    or [None], [WriteEventBody] returns normally and leaves the state as
    it was: nothing is written, whatever the event, its identifier and the
    other arguments are. *)
Theorem WriteEventBody_missing_coordinates (self : KMLOutputModule)
  (event : EventObject) (event_data : EventData)
  (event_data_stream : option EventDataStream) (event_tag : option EventTag)
  (st : state) :
  getattr event_data "latitude" PyNone = PyNone
  \/ getattr event_data "longitude" PyNone = PyNone ->
  WriteEventBody codec_registry self event event_data event_data_stream
    event_tag st = (Ok tt, st).
Proof.
  intros H. apply WriteEventBody_ineligible.
  destruct H as [-> | ->]; [reflexivity|apply andb_false_r].
Qed.

(** C4 (amended): when the configured encoding has an ASCII-compatible
    codec, for an eligible record whose identifier converts to a string
    and whose description is formatted, both made of characters that XML
    1.0 allows, none of them a carriage return (markup characters, quotes
    and characters outside ASCII included), and whose coordinate text is
    made of characters that XML 1.0 allows, [WriteEventBody] returns and
    writes one fragment, which reads back with the identifier as the text
    of [name] and the description, followed by the appended newline, as
    the text of [description]. *)
Theorem escape_parse_round_trip (self : KMLOutputModule)
  (event : EventObject) (event_data : EventData)
  (event_data_stream : option EventDataStream) (event_tag : option EventTag)
  (st : state) (identifier : AttributeContainerIdentifier) (id desc : pystr)
  (decoder : bytes -> outcome pystr) :
  is_not_None (getattr event_data "latitude" PyNone)
  && is_not_None (getattr event_data "longitude" PyNone) = true ->
  GetIdentifier event = Some identifier ->
  CopyToString identifier = Ok id ->
  GetFormattedEvent (_event_formatting_helper self) event event_data
    event_data_stream event_tag = Ok desc ->
  codec_registry (encoding (_output_mediator self)) = Some decoder ->
  codecs.ascii_compatible decoder ->
  forallb XML.is_char id = true -> no_carriage_return id = true ->
  forallb XML.is_char desc = true -> no_carriage_return desc = true ->
  forallb XML.is_char
    (coordinates_text (getattr event_data "latitude" PyNone)
       (getattr event_data "longitude" PyNone)) = true ->
  exists st' fragment,
    WriteEventBody codec_registry self event event_data event_data_stream
      event_tag st = (Ok tt, st')
    /\ output st' = output st ++ [fragment]
    /\ recovered_text fragment (lit "name") = Some id
    /\ recovered_text fragment (lit "description") = Some (desc ++ [10]).
Proof.
  intros Hel Hid Hcopy Hdesc Hreg Hdec Cid Rid Cdesc Rdesc Ccoords.
  eexists. eexists. split.
  - by apply (WriteEventBody_eligible codec_registry self event event_data
                event_data_stream event_tag st identifier id desc decoder).
  - cbn [output]. split; [reflexivity|].
    unfold recovered_text.
    rewrite (parse_placemark _ _ _ Cid Cdesc Ccoords).
    unfold placemark_node. split.
    + change (XML.child (lit "name") ?n)
        with (Some (XML.Elem (lit "name") []
                      (text_nodes (XML.normalize_eol id)))).
      cbn [fmap option_fmap option_map].
      by rewrite text_of_text_nodes, normalize_no_carriage_return.
    + change (XML.child (lit "description") ?n)
        with (Some (XML.Elem (lit "description") []
                      (text_nodes (XML.normalize_eol (desc ++ [10]))))).
      cbn [fmap option_fmap option_map].
      rewrite text_of_text_nodes, normalize_no_carriage_return; [done|].
      unfold no_carriage_return in *. by rewrite forallb_app, Rdesc.
Qed.

(** C5 (amended): for an eligible record whose identifier converts to a
    string and whose description is formatted, when the configured
    encoding has an ASCII-compatible codec, [WriteEventBody] builds
    exactly five elements, none with attributes or a tail: [Placemark]
    with the children [name], [description] and [Point] in this order,
    [name] with the identifier string as text, [description] with the
    formatted description and one newline, [Point] with the one child
    [coordinates]; and it hands their serialization to the sink in one
    write. *)
Theorem WriteEventBody_placemark_tree (self : KMLOutputModule)
  (event : EventObject) (event_data : EventData)
  (event_data_stream : option EventDataStream) (event_tag : option EventTag)
  (st : state) (identifier : AttributeContainerIdentifier) (id desc : pystr)
  (decoder : bytes -> outcome pystr) (latitude longitude : pyval) :
  getattr event_data "latitude" PyNone = latitude ->
  getattr event_data "longitude" PyNone = longitude ->
  is_not_None latitude = true ->
  is_not_None longitude = true ->
  GetIdentifier event = Some identifier ->
  CopyToString identifier = Ok id ->
  GetFormattedEvent (_event_formatting_helper self) event event_data
    event_data_stream event_tag = Ok desc ->
  codec_registry (encoding (_output_mediator self)) = Some decoder ->
  codecs.ascii_compatible decoder ->
  WriteEventBody codec_registry self event event_data event_data_stream
    event_tag st
  = (Ok tt,
     mkState
       [ mkElement (lit "Placemark") [] None None [1; 2; 3]%nat;
         mkElement (lit "name") [] (Some id) None [];
         mkElement (lit "description") [] (Some (desc ++ [10])) None [];
         mkElement (lit "Point") [] None None [4%nat];
         mkElement (lit "coordinates") []
           (Some (py_str longitude ++ lit "," ++ py_str latitude)) None [] ]
       (output st
        ++ [ lit "<Placemark>" ++ element_text (lit "name") id
             ++ element_text (lit "description") (desc ++ [10])
             ++ lit "<Point>"
             ++ element_text (lit "coordinates")
                  (py_str longitude ++ lit "," ++ py_str latitude)
             ++ lit "</Point></Placemark>" ])).
Proof.
  intros Hlat Hlon Nlat Nlon Hid Hcopy Hdesc Hreg Hdec.
  rewrite (WriteEventBody_eligible codec_registry self event event_data
             event_data_stream event_tag st identifier id desc decoder);
    try assumption.
  - by rewrite Hlat, Hlon.
  - by rewrite Hlat, Hlon, Nlat, Nlon.
Qed.

(** C6: [WriteHeader] returns normally after exactly one write: the XML
    declaration with version 1.0 and the configured encoding name,
    directly followed by the opening [kml] tag with the KML 2.2 namespace
    and the opening [Document] tag. Nothing else changes. *)
Theorem WriteHeader_single_write (self : KMLOutputModule) (st : state) :
  WriteHeader self st
  = (Ok tt,
     mkState (elements st)
       (output st
        ++ [ (lit "<?xml version=" ++ [34] ++ lit "1.0" ++ [34]
              ++ lit " encoding=" ++ [34]
              ++ encoding (_output_mediator self) ++ [34] ++ lit "?>")
             ++ (lit "<kml xmlns=" ++ [34]
                 ++ lit "http://www.opengis.net/kml/2.2" ++ [34] ++ lit ">")
             ++ lit "<Document>" ])).
Proof.
  unfold WriteHeader, WriteText. do 4 f_equal. eval_lits. list_norm.
  reflexivity.
Qed.

(** C7 (amended): the module keeps no record of the header having been
    written. In every state, whatever was called before, [WriteHeader]
    returns normally and writes the header text, and [WriteFooter]
    returns normally and writes the footer text: a second [WriteHeader]
    writes the header again, a [WriteFooter] before any [WriteHeader]
    writes the footer, and neither raises. *)
Theorem WriteHeader_WriteFooter_always_write (self : KMLOutputModule)
  (st : state) :
  WriteHeader self st
  = (Ok tt,
     mkState (elements st)
       (output st ++ [header_text (encoding (_output_mediator self))]))
  /\ WriteFooter self st
     = (Ok tt, mkState (elements st) (output st ++ [footer_text])).
Proof. split; [apply WriteHeader_text|reflexivity]. Qed.

(** C8 (amended): for an eligible record whose identifier does not
    convert to a string (there is no identifier, or [CopyToString]
    raises), [WriteEventBody] writes nothing and the exception of the
    conversion reaches the caller as it is; a caller that does not handle
    it makes none of its later calls. *)
Theorem identifier_failure_propagates (self : KMLOutputModule) (r : record)
  (e : exn) (later : list method_call) (st : state) :
  eligible r = true ->
  identifier_of r = Raise e ->
  exists st',
    perform_all codec_registry self (CallWriteEventBody r :: later) st
    = (Raise e, st')
    /\ output st' = output st.
Proof.
  intros Hel Hid. cbn [perform_all perform]. unfold bind at 1.
  unfold WriteEventBody. unfold eligible in Hel. rewrite Hel.
  unfold identifier_of in Hid.
  unfold bind, collect_elements, ElementTree.SubElement, ElementTree.Element,
    ret, call, raise.
  cbn -[lit].
  destruct (GetIdentifier (rec_event r)) as [identifier|].
  - rewrite Hid. eexists. split; reflexivity.
  - injection Hid as <-. eexists. split; reflexivity.
Qed.

(** C9 (amended): the test is on [None], not on the truth value. For a
    record whose latitude and longitude are present and false as truth
    values (0.0, 0, [False], the empty string), whose identifier converts
    to a string and whose description is formatted, when the configured
    encoding has an ASCII-compatible codec, [WriteEventBody] writes the
    placemark with these coordinates; for 0.0 and 0.0 the coordinates
    text is [0.0,0.0]. *)
Theorem eligibility_is_not_None (self : KMLOutputModule)
  (event : EventObject) (event_data : EventData)
  (event_data_stream : option EventDataStream) (event_tag : option EventTag)
  (st : state) (identifier : AttributeContainerIdentifier) (id desc : pystr)
  (decoder : bytes -> outcome pystr) (latitude longitude : pyval) :
  getattr event_data "latitude" PyNone = latitude ->
  getattr event_data "longitude" PyNone = longitude ->
  latitude <> PyNone ->
  longitude <> PyNone ->
  py_truthy latitude = false ->
  py_truthy longitude = false ->
  GetIdentifier event = Some identifier ->
  CopyToString identifier = Ok id ->
  GetFormattedEvent (_event_formatting_helper self) event event_data
    event_data_stream event_tag = Ok desc ->
  codec_registry (encoding (_output_mediator self)) = Some decoder ->
  codecs.ascii_compatible decoder ->
  WriteEventBody codec_registry self event event_data event_data_stream
    event_tag st
  = (Ok tt,
     mkState (placemark_elements id desc (coordinates_text latitude longitude))
       (output st
        ++ [placemark_text id desc (coordinates_text latitude longitude)]))
  /\ (latitude = float_zero -> longitude = float_zero ->
      coordinates_text latitude longitude = lit "0.0,0.0").
Proof.
  intros Hlat Hlon Nlat Nlon _ _ Hid Hcopy Hdesc Hreg Hdec. split.
  - rewrite (WriteEventBody_eligible codec_registry self event event_data
               event_data_stream event_tag st identifier id desc decoder);
      try assumption.
    + by rewrite Hlat, Hlon.
    + rewrite Hlat, Hlon. by destruct latitude, longitude.
  - intros -> ->. reflexivity.
Qed.

(** C10 (amended): the bytes [ElementTree.tostring] returns are ASCII
    whatever the configuration, a character outside ASCII being written
    as a decimal character reference; so for an eligible record and a
    configured encoding that is ASCII-compatible the decoding succeeds
    and the fragment [WriteEventBody] writes has only ASCII
    characters. *)
Theorem fragment_is_ascii (self : KMLOutputModule)
  (event : EventObject) (event_data : EventData)
  (event_data_stream : option EventDataStream) (event_tag : option EventTag)
  (st : state) (identifier : AttributeContainerIdentifier) (id desc : pystr)
  (decoder : bytes -> outcome pystr) :
  is_not_None (getattr event_data "latitude" PyNone)
  && is_not_None (getattr event_data "longitude" PyNone) = true ->
  GetIdentifier event = Some identifier ->
  CopyToString identifier = Ok id ->
  GetFormattedEvent (_event_formatting_helper self) event event_data
    event_data_stream event_tag = Ok desc ->
  codec_registry (encoding (_output_mediator self)) = Some decoder ->
  codecs.ascii_compatible decoder ->
  (exists st' fragment,
     WriteEventBody codec_registry self event event_data event_data_stream
       event_tag st = (Ok tt, st')
     /\ output st' = output st ++ [fragment]
     /\ forallb is_ascii fragment = true)
  /\ (forall (element : nat) (st1 st2 : state) (xml_string : bytes),
        ElementTree.tostring element st1 = (Ok xml_string, st2) ->
        forallb is_ascii xml_string = true)
  /\ (forall c : N,
        is_ascii c = false ->
        escape_text [c] = lit "&#" ++ N_to_pystr c ++ lit ";").
Proof.
  intros Hel Hid Hcopy Hdesc Hreg Hdec. split; [|split].
  - eexists. eexists. split.
    + by apply (WriteEventBody_eligible codec_registry self event event_data
                  event_data_stream event_tag st identifier id desc decoder).
    + cbn [output]. split; [reflexivity|].
      rewrite <- encode_serialized_placemark. apply encode_ascii_is_ascii.
  - intros element st1 st2 xml_string. unfold ElementTree.tostring.
    destruct (ElementTree._serialize_xml _ _ _); [|discriminate].
    intros [= <- _]. apply encode_ascii_is_ascii.
  - intros c Hc. rewrite escape_text_single. unfold escape_char.
    unfold is_ascii in Hc. apply N.ltb_ge in Hc.
    destruct (N.eqb_spec c 38); [lia|]. destruct (N.eqb_spec c 60); [lia|].
    destruct (N.eqb_spec c 62); [lia|].
    unfold ElementTree.xmlcharrefreplace, is_ascii.
    destruct (N.ltb_spec c 128); [lia|reflexivity].
Qed.

End Claims.

(** ** The properties on the sample data *)

(** The end-to-end example: E1 has coordinates, E2 has none. *)
Lemma write_document_well_formed_example :
  exists st',
    write_document codecs.python_codecs utf8_module example_records
      initial_state = (Ok tt, st')
    /\ output st'
       = [ header_text (lit "utf-8");
           placemark_text (lit "E1") (lit "Home") (lit "-122.08,37.42");
           footer_text ]
    /\ XML.parse_document (concat (output st'))
       = Some (kml_document
                 [placemark_node (lit "E1") (lit "Home")
                    (lit "-122.08,37.42")]).
Proof.
  destruct (write_document_well_formed codecs.python_codecs utf8_module
              example_records initial_state codecs.utf_8_decode
              eq_refl utf_8_ascii_compatible eq_refl example_records_xml)
    as (st' & Hrun & Hout & Hparse).
  exists st'. split; [exact Hrun|]. rewrite Hout. split.
  - vm_compute. reflexivity.
  - exact Hparse.
Defined.

(** A description with the control character U+001B: the document holds
    a character that no XML document may contain, and does not parse. *)
Lemma write_document_control_character :
  exists st',
    write_document codecs.python_codecs utf8_module [escape_record]
      initial_state = (Ok tt, st')
    /\ existsb (fun c => negb (XML.is_char c)) (document st') = true
    /\ XML.parse_document (document st') = None.
Proof. eexists. split; [vm_compute; reflexivity|]. split; reflexivity. Qed.

(** No coordinates and an identifier that does not convert: nothing is
    written and nothing is raised. *)
Lemma WriteEventBody_missing_coordinates_example :
  WriteEventBody codecs.python_codecs utf8_module
    (rec_event malformed_record)
    (rec_event_data (record_without_coordinates (Ok (lit "E2")) (lit "NoGeo")))
    None None initial_state = (Ok tt, initial_state).
Proof.
  apply (WriteEventBody_missing_coordinates codecs.python_codecs).
  left. vm_compute. reflexivity.
Defined.

(** The text of an element is read back differently from what the record
    held, or not at all: a carriage return in the description comes back
    as a line feed; with a coordinate that holds a character XML 1.0
    forbids, the fragment written cannot be parsed, whatever identifier
    and description are; and the text written with the encoding utf-16-le
    is not the fragment, so nothing is read back from it. *)
Lemma text_not_recovered :
  (exists st' fragment,
     WriteEventBody codecs.python_codecs utf8_module
       (rec_event carriage_return_record)
       (rec_event_data carriage_return_record) None None initial_state
     = (Ok tt, st')
     /\ output st' = [fragment]
     /\ recovered_text fragment (lit "description") = Some [97; 10; 98; 10]
     /\ recovered_text fragment (lit "description")
        <> Some ([97; 13; 98] ++ [10]))
  /\ (exists st' fragment,
        WriteEventBody codecs.python_codecs utf8_module
          (rec_event control_coordinate_record)
          (rec_event_data control_coordinate_record) None None initial_state
        = (Ok tt, st')
        /\ output st' = [fragment]
        /\ identifier_of control_coordinate_record = Ok (lit "E1")
        /\ description_of utf8_module control_coordinate_record
           = Ok (lit "Home")
        /\ recovered_text fragment (lit "name") = None
        /\ recovered_text fragment (lit "description") = None)
  /\ (exists st' fragment,
        WriteEventBody codecs.python_codecs utf16_module
          (rec_event utf16_record) (rec_event_data utf16_record) None None
          initial_state
        = (Ok tt, st')
        /\ output st' = [fragment]
        /\ identifier_of utf16_record = Ok (lit "E12")
        /\ description_of utf16_module utf16_record = Ok (lit "Home")
        /\ recovered_text fragment (lit "name") = None
        /\ recovered_text fragment (lit "description") = None).
Proof.
  split; [|split].
  - eexists. eexists. split; [vm_compute; reflexivity|].
    split; [reflexivity|]. split; [vm_compute; reflexivity|]. discriminate.
  - eexists. eexists. split; [vm_compute; reflexivity|].
    split; [reflexivity|]. repeat split; vm_compute; reflexivity.
  - eexists. eexists. split; [vm_compute; reflexivity|].
    split; [reflexivity|]. repeat split; vm_compute; reflexivity.
Qed.

Lemma escape_parse_round_trip_example :
  exists st' fragment,
    WriteEventBody codecs.python_codecs utf8_module (rec_event tricky_record)
      (rec_event_data tricky_record) None None initial_state = (Ok tt, st')
    /\ output st' = output initial_state ++ [fragment]
    /\ recovered_text fragment (lit "name") = Some tricky_identifier
    /\ recovered_text fragment (lit "description")
       = Some (tricky_description ++ [10]).
Proof.
  apply (escape_parse_round_trip codecs.python_codecs utf8_module
           (rec_event tricky_record) (rec_event_data tricky_record)
           None None initial_state (mkIdentifier (Ok tricky_identifier))
           tricky_identifier tricky_description codecs.utf_8_decode);
    try reflexivity.
  exact utf_8_ascii_compatible.
Defined.

(** An eligible record for which no fragment is written: the identifier
    does not convert, the formatting helper raises, or no codec is
    registered for the configured encoding; and one for which the text
    written is not the serialization of the five elements, the configured
    encoding being utf-16-le. *)
Lemma eligible_record_without_fragment :
  (eligible malformed_record = true
   /\ exists st',
        WriteEventBody codecs.python_codecs utf8_module
          (rec_event malformed_record) (rec_event_data malformed_record)
          None None initial_state
        = (Raise (RuntimeError "malformed identifier"), st')
        /\ output st' = [])
  /\ (eligible record_without_message = true
      /\ exists st',
           WriteEventBody codecs.python_codecs utf8_module
             (rec_event record_without_message)
             (rec_event_data record_without_message) None None
             initial_state
           = (Raise TypeError, st')
           /\ output st' = [])
  /\ (eligible utf16_record = true
      /\ exists st',
           WriteEventBody codecs.python_codecs unknown_encoding_module
             (rec_event utf16_record) (rec_event_data utf16_record) None
             None initial_state
           = (Raise LookupError, st')
           /\ output st' = [])
  /\ (eligible utf16_record = true
      /\ exists st' fragment,
           WriteEventBody codecs.python_codecs utf16_module
             (rec_event utf16_record) (rec_event_data utf16_record) None
             None initial_state
           = (Ok tt, st')
           /\ output st' = [fragment]
           /\ fragment
              <> placemark_text (lit "E12") (lit "Home")
                   (lit "-70.25,12.5")
           /\ XML.parse_element fragment = None).
Proof.
  split; [|split; [|split]]; (split; [reflexivity|]).
  - eexists. split; [vm_compute; reflexivity|reflexivity].
  - eexists. split; [vm_compute; reflexivity|reflexivity].
  - eexists. split; [vm_compute; reflexivity|reflexivity].
  - eexists. eexists. split; [vm_compute; reflexivity|].
    split; [reflexivity|]. split; [vm_compute; discriminate|].
    vm_compute. reflexivity.
Qed.

Lemma WriteEventBody_placemark_tree_example :
  WriteEventBody codecs.python_codecs utf8_module (rec_event tricky_record)
    (rec_event_data tricky_record) None None initial_state
  = (Ok tt,
     mkState
       (placemark_elements tricky_identifier tricky_description
          (lit "-70.25,12.5"))
       [ lit "<Placemark><name>E&lt;1&gt;&amp;&#233;&#8364;</name>"
         ++ lit "<description>" ++ 34 :: lit "it's" ++ 34 ::
         lit " &lt;b&gt;&amp;amp;&#26085;&#128512;" ++ 10 ::
         lit "</description><Point><coordinates>-70.25,12.5</coordinates>"
         ++ lit "</Point></Placemark>" ]).
Proof.
  rewrite (WriteEventBody_placemark_tree codecs.python_codecs utf8_module
             (rec_event tricky_record) (rec_event_data tricky_record)
             None None initial_state (mkIdentifier (Ok tricky_identifier))
             tricky_identifier tricky_description codecs.utf_8_decode
             float_12_5 float_minus_70_25
             eq_refl eq_refl eq_refl eq_refl eq_refl eq_refl eq_refl eq_refl
             utf_8_ascii_compatible).
  vm_compute. reflexivity.
Defined.

(** The header twice, and the footer alone: no exception, and the texts
    are written. *)
Lemma framing_misuse_not_reported :
  perform_all codecs.python_codecs utf8_module
    [CallWriteHeader; CallWriteHeader] initial_state
  = (Ok tt,
     mkState [] [header_text (lit "utf-8"); header_text (lit "utf-8")])
  /\ perform_all codecs.python_codecs utf8_module [CallWriteFooter]
       initial_state
     = (Ok tt, mkState [] [footer_text]).
Proof. split; vm_compute; reflexivity. Qed.

(** A record whose identifier does not convert, before the records of
    the example: the exception ends the run after the header, and neither
    the placemark of E1 nor the footer is written. *)
Lemma identifier_failure_aborts :
  exists st',
    write_document codecs.python_codecs utf8_module
      (malformed_record :: example_records) initial_state
    = (Raise (RuntimeError "malformed identifier"), st')
    /\ output st' = [header_text (lit "utf-8")].
Proof. eexists. split; vm_compute; reflexivity. Qed.

Lemma identifier_failure_propagates_example :
  (exists st',
     perform_all codecs.python_codecs utf8_module
       (CallWriteEventBody malformed_record
          :: map CallWriteEventBody example_records ++ [CallWriteFooter])
       initial_state
     = (Raise (RuntimeError "malformed identifier"), st')
     /\ output st' = output initial_state)
  /\ (exists st',
        perform_all codecs.python_codecs utf8_module
          [CallWriteEventBody unidentified_record] initial_state
        = (Raise AttributeError, st')
        /\ output st' = output initial_state).
Proof.
  split.
  - apply (identifier_failure_propagates codecs.python_codecs utf8_module
             malformed_record); reflexivity.
  - apply (identifier_failure_propagates codecs.python_codecs utf8_module
             unidentified_record); reflexivity.
Defined.

(** A record whose latitude and longitude are both 0.0, so present and
    false as truth values, for which no placemark is written: the
    identifier does not convert, or no codec is registered for the
    configured encoding. *)
Lemma zero_coordinates_without_placemark :
  (latitude_of zero_malformed_record = float_zero
   /\ longitude_of zero_malformed_record = float_zero
   /\ py_truthy float_zero = false
   /\ eligible zero_malformed_record = true
   /\ exists st',
        WriteEventBody codecs.python_codecs utf8_module
          (rec_event zero_malformed_record)
          (rec_event_data zero_malformed_record) None None initial_state
        = (Raise (RuntimeError "malformed identifier"), st')
        /\ output st' = [])
  /\ (latitude_of zero_record = float_zero
      /\ longitude_of zero_record = float_zero
      /\ eligible zero_record = true
      /\ exists st',
           WriteEventBody codecs.python_codecs unknown_encoding_module
             (rec_event zero_record) (rec_event_data zero_record) None None
             initial_state
           = (Raise LookupError, st')
           /\ output st' = []).
Proof.
  split.
  - repeat (split; [reflexivity|]).
    eexists. split; [vm_compute; reflexivity|reflexivity].
  - repeat (split; [reflexivity|]).
    eexists. split; [vm_compute; reflexivity|reflexivity].
Qed.

Lemma eligibility_is_not_None_example :
  WriteEventBody codecs.python_codecs utf8_module (rec_event zero_record)
    (rec_event_data zero_record) None None initial_state
  = (Ok tt,
     mkState
       (placemark_elements (lit "E0") (lit "Null Island") (lit "0.0,0.0"))
       [placemark_text (lit "E0") (lit "Null Island") (lit "0.0,0.0")])
  /\ py_truthy float_zero = false.
Proof.
  split; [|reflexivity].
  destruct (eligibility_is_not_None codecs.python_codecs utf8_module
              (rec_event zero_record) (rec_event_data zero_record)
              None None initial_state (mkIdentifier (Ok (lit "E0")))
              (lit "E0") (lit "Null Island") codecs.utf_8_decode
              float_zero float_zero eq_refl eq_refl
              ltac:(discriminate) ltac:(discriminate) eq_refl eq_refl
              eq_refl eq_refl eq_refl eq_refl utf_8_ascii_compatible)
    as [Hrun Hzero].
  rewrite Hrun, (Hzero eq_refl eq_refl). reflexivity.
Defined.

(** With [utf-16-le] configured, the ASCII bytes of the fragment are
    decoded two by two: the text written is not ASCII. *)
Lemma utf_16_le_fragment_not_ascii :
  exists st' fragment,
    WriteEventBody codecs.python_codecs utf16_module (rec_event utf16_record)
      (rec_event_data utf16_record) None None initial_state = (Ok tt, st')
    /\ output st' = [fragment]
    /\ take 4 fragment = [20540; 24940; 25955; 24941]
    /\ forallb is_ascii fragment = false.
Proof.
  eexists. eexists. split; [vm_compute; reflexivity|].
  repeat split; reflexivity.
Qed.

Lemma fragment_is_ascii_example :
  exists st' fragment,
    WriteEventBody codecs.python_codecs utf8_module (rec_event tricky_record)
      (rec_event_data tricky_record) None None initial_state = (Ok tt, st')
    /\ output st' = output initial_state ++ [fragment]
    /\ forallb is_ascii fragment = true.
Proof.
  apply (fragment_is_ascii codecs.python_codecs utf8_module
           (rec_event tricky_record) (rec_event_data tricky_record)
           None None initial_state (mkIdentifier (Ok tricky_identifier))
           tricky_identifier tricky_description codecs.utf_8_decode);
    try reflexivity.
  exact utf_8_ascii_compatible.
Defined.

(** * Further properties of the module *)

(** ** Every outcome of a call *)

Section Outcomes.

Variable codec_registry : codecs.registry.

(** What [WriteEventBody] does for an eligible record whose identifier
    converts and whose description is formatted, whatever the codec. *)
Lemma WriteEventBody_decoded (self : KMLOutputModule) (event : EventObject)
  (event_data : EventData) (event_data_stream : option EventDataStream)
  (event_tag : option EventTag) (st : state)
  (identifier : AttributeContainerIdentifier) (id desc : pystr) :
  is_not_None (getattr event_data "latitude" PyNone)
  && is_not_None (getattr event_data "longitude" PyNone) = true ->
  GetIdentifier event = Some identifier ->
  CopyToString identifier = Ok id ->
  GetFormattedEvent (_event_formatting_helper self) event event_data
    event_data_stream event_tag = Ok desc ->
  let coords :=
    coordinates_text (getattr event_data "latitude" PyNone)
      (getattr event_data "longitude" PyNone) in
  WriteEventBody codec_registry self event event_data event_data_stream
    event_tag st
  = match decoded_fragment codec_registry self id desc coords with
    | Ok fragment =>
        (Ok tt,
         mkState (placemark_elements id desc coords)
           (output st ++ [fragment]))
    | Raise e =>
        (Raise e, mkState (placemark_elements id desc coords) (output st))
    end.
Proof.
  intros Hel Hid Hcopy Hdesc coords.
  unfold WriteEventBody. rewrite Hel.
  unfold bind, collect_elements, ElementTree.SubElement, ElementTree.Element,
    ElementTree.set_text, ret, bind, call, ElementTree.tostring, codecs.decode.
  cbn -[ElementTree._serialize_xml lit getattr py_str].
  rewrite Hid, Hcopy. cbn -[ElementTree._serialize_xml lit getattr py_str].
  rewrite Hdesc. cbn -[ElementTree._serialize_xml lit getattr py_str].
  match goal with
  | |- context [ElementTree._serialize_xml 5 ?l 0] =>
      change l with (placemark_elements id desc coords)
  end.
  rewrite serialize_placemark, encode_serialized_placemark.
  unfold decoded_fragment, raise, call.
  destruct (codec_registry (encoding (_output_mediator self))) as [decoder|];
    [|reflexivity].
  destruct (decoder (placemark_text id desc coords)); reflexivity.
Qed.

(** What a call of [WriteEventBody] for a record does, case by case. *)
Lemma perform_record_cases (self : KMLOutputModule) (r : record) (st : state) :
  perform codec_registry self (CallWriteEventBody r) st
  = if eligible r then
      match identifier_of r with
      | Raise e =>
          (Raise e,
           mkState [ mkElement (lit "Placemark") [] None None [1%nat];
                     mkElement (lit "name") [] None None [] ] (output st))
      | Ok id =>
          match description_of self r with
          | Raise e =>
              (Raise e,
               mkState
                 [ mkElement (lit "Placemark") [] None None [1; 2]%nat;
                   mkElement (lit "name") [] (Some id) None [];
                   mkElement (lit "description") [] None None [] ]
                 (output st))
          | Ok desc =>
              let coords :=
                coordinates_text (latitude_of r) (longitude_of r) in
              match decoded_fragment codec_registry self id desc coords with
              | Ok fragment =>
                  (Ok tt,
                   mkState (placemark_elements id desc coords)
                     (output st ++ [fragment]))
              | Raise e =>
                  (Raise e,
                   mkState (placemark_elements id desc coords) (output st))
              end
          end
      end
    else (Ok tt, st).
Proof.
  destruct (eligible r) eqn:Hel; [|by apply perform_ineligible].
  cbn [perform]. unfold identifier_of, description_of.
  destruct (GetIdentifier (rec_event r)) as [identifier|] eqn:Hid.
  - destruct (CopyToString identifier) as [id|e] eqn:Hcopy.
    + destruct (GetFormattedEvent _ _ _ _ _) as [desc|e] eqn:Hdesc.
      * by apply (WriteEventBody_decoded self _ _ _ _ st identifier).
      * unfold WriteEventBody. unfold eligible in Hel. rewrite Hel.
        unfold bind, collect_elements, ElementTree.SubElement,
          ElementTree.Element, ElementTree.set_text, ret, call.
        cbn -[lit getattr py_str]. rewrite Hid, Hcopy.
        cbn -[lit getattr py_str]. rewrite Hdesc. reflexivity.
    + unfold WriteEventBody. unfold eligible in Hel. rewrite Hel.
      unfold bind, collect_elements, ElementTree.SubElement,
        ElementTree.Element, ElementTree.set_text, ret, call.
      cbn -[lit getattr py_str]. rewrite Hid, Hcopy. reflexivity.
  - unfold WriteEventBody. unfold eligible in Hel. rewrite Hel.
    unfold bind, collect_elements, ElementTree.SubElement,
      ElementTree.Element, ElementTree.set_text, ret, call, raise.
    cbn -[lit getattr py_str]. rewrite Hid. reflexivity.
Qed.

(** A call writes at most once, and only when it returns normally. *)
Lemma perform_output (self : KMLOutputModule) (c : method_call) (st : state) :
  exists ws,
    output (perform codec_registry self c st).2 = output st ++ ws
    /\ (length ws <= 1)%nat
    /\ (forall e, (perform codec_registry self c st).1 = Raise e -> ws = []).
Proof.
  destruct c as [|r|].
  - cbn [perform]. rewrite WriteHeader_text. eexists. cbn.
    split; [reflexivity|]. split; [cbn; lia|discriminate].
  - rewrite perform_record_cases.
    destruct (eligible r).
    2:{ exists []. cbn. rewrite app_nil_r. split; [done|].
        split; [cbn; lia|done]. }
    destruct (identifier_of r) as [id|e].
    2:{ exists []. cbn. rewrite app_nil_r. split; [done|].
        split; [cbn; lia|done]. }
    destruct (description_of self r) as [desc|e].
    2:{ exists []. cbn. rewrite app_nil_r. split; [done|].
        split; [cbn; lia|done]. }
    cbv zeta. destruct (decoded_fragment _ _ _ _ _) as [fragment|e].
    + eexists. cbn. split; [reflexivity|]. split; [cbn; lia|discriminate].
    + exists []. cbn. rewrite app_nil_r. split; [done|]. split; [cbn; lia|done].
  - cbn [perform]. eexists. cbn. split; [reflexivity|].
    split; [cbn; lia|discriminate].
Qed.

(** X1: whatever calls are made, in whatever order and with whatever
    outcome, what the sink has received stays as it is: a sequence of
    calls only appends writes, at most one for each call. *)
Theorem output_append_only (self : KMLOutputModule) (cs : list method_call)
  (st : state) :
  exists ws,
    output (perform_all codec_registry self cs st).2 = output st ++ ws
    /\ (length ws <= length cs)%nat.
Proof.
  revert st. induction cs as [|c cs IH]; intros st.
  - exists []. cbn. by rewrite app_nil_r.
  - cbn [perform_all]. unfold bind.
    destruct (perform_output self c st) as (ws1 & H1 & L1 & R1).
    destruct (perform codec_registry self c st) as [[[]|e] st1] eqn:E;
      cbn [fst snd] in *.
    + destruct (IH st1) as (ws2 & H2 & L2). exists (ws1 ++ ws2).
      rewrite H2, H1, <- app_assoc. split; [done|].
      rewrite length_app. cbn [length]. lia.
    + exists ws1. split; [done|]. cbn [length]. lia.
Qed.

End Outcomes.

Section Failures.

Variable codec_registry : codecs.registry.

(** X2: when the formatting helper raises for an eligible record,
    [WriteEventBody] writes nothing and raises: the exception of the
    identifier's conversion if that fails as well (it is evaluated
    first), the helper's exception otherwise. *)
Theorem formatting_failure_propagates (self : KMLOutputModule) (r : record)
  (e : exn) (st : state) :
  eligible r = true ->
  description_of self r = Raise e ->
  exists st',
    WriteEventBody codec_registry self (rec_event r) (rec_event_data r)
      (rec_event_data_stream r) (rec_event_tag r) st
    = (Raise (match identifier_of r with Raise e' => e' | Ok _ => e end), st')
    /\ output st' = output st.
Proof.
  intros Hel Hdesc.
  change (WriteEventBody codec_registry self (rec_event r) (rec_event_data r)
            (rec_event_data_stream r) (rec_event_tag r) st)
    with (perform codec_registry self (CallWriteEventBody r) st).
  rewrite perform_record_cases, Hel, Hdesc.
  destruct (identifier_of r); eexists; split; reflexivity.
Qed.

(** X3: for an eligible record whose identifier and description are
    available, a configured encoding for which no codec is registered
    makes [WriteEventBody] raise [LookupError], and a codec that rejects
    the bytes of the fragment makes it raise the codec's exception; in
    both cases nothing is written. *)
Theorem decode_failure_propagates (self : KMLOutputModule) (r : record)
  (id desc : pystr) (st : state) :
  eligible r = true ->
  identifier_of r = Ok id ->
  description_of self r = Ok desc ->
  let fragment_bytes :=
    placemark_text id desc
      (coordinates_text (latitude_of r) (longitude_of r)) in
  let call_result :=
    WriteEventBody codec_registry self (rec_event r) (rec_event_data r)
      (rec_event_data_stream r) (rec_event_tag r) st in
  (codec_registry (encoding (_output_mediator self)) = None ->
   call_result.1 = Raise LookupError /\ output call_result.2 = output st)
  /\ (forall decoder e,
        codec_registry (encoding (_output_mediator self)) = Some decoder ->
        decoder fragment_bytes = Raise e ->
        call_result.1 = Raise e /\ output call_result.2 = output st).
Proof.
  intros Hel Hid Hdesc fragment_bytes call_result.
  assert (call_result
          = match decoded_fragment codec_registry self id desc
                    (coordinates_text (latitude_of r) (longitude_of r)) with
            | Ok fragment =>
                (Ok tt,
                 mkState (placemark_elements id desc
                            (coordinates_text (latitude_of r) (longitude_of r)))
                   (output st ++ [fragment]))
            | Raise e =>
                (Raise e,
                 mkState (placemark_elements id desc
                            (coordinates_text (latitude_of r) (longitude_of r)))
                   (output st))
            end) as ->.
  { unfold call_result.
    change (WriteEventBody codec_registry self (rec_event r)
              (rec_event_data r) (rec_event_data_stream r) (rec_event_tag r)
              st)
      with (perform codec_registry self (CallWriteEventBody r) st).
    by rewrite perform_record_cases, Hel, Hid, Hdesc. }
  unfold decoded_fragment. split.
  - intros ->. split; reflexivity.
  - intros decoder e -> He. unfold fragment_bytes in He. rewrite He.
    split; reflexivity.
Qed.

End Failures.

Lemma formatting_failure_propagates_example :
  exists st',
    WriteEventBody codecs.python_codecs utf8_module
      (rec_event record_without_message)
      (rec_event_data record_without_message) None None initial_state
    = (Raise TypeError, st')
    /\ output st' = output initial_state.
Proof.
  apply (formatting_failure_propagates codecs.python_codecs utf8_module
           record_without_message TypeError initial_state);
    reflexivity.
Defined.

Lemma decode_failure_propagates_example :
  ((WriteEventBody codecs.python_codecs unknown_encoding_module
      (rec_event tricky_record) (rec_event_data tricky_record) None None
      initial_state).1 = Raise LookupError
   /\ output
        (WriteEventBody codecs.python_codecs unknown_encoding_module
           (rec_event tricky_record) (rec_event_data tricky_record) None None
           initial_state).2 = [])
  /\ ((WriteEventBody codecs.python_codecs utf16_module
         (rec_event tricky_record) (rec_event_data tricky_record) None None
         initial_state).1 = Raise UnicodeDecodeError
      /\ output
           (WriteEventBody codecs.python_codecs utf16_module
              (rec_event tricky_record) (rec_event_data tricky_record) None
              None initial_state).2 = []).
Proof.
  split.
  - exact (proj1 (decode_failure_propagates codecs.python_codecs
                    unknown_encoding_module tricky_record tricky_identifier
                    tricky_description initial_state eq_refl eq_refl eq_refl)
             eq_refl).
  - exact (proj2 (decode_failure_propagates codecs.python_codecs utf16_module
                    tricky_record tricky_identifier tricky_description
                    initial_state eq_refl eq_refl eq_refl)
             codecs.utf_16_le_decode UnicodeDecodeError eq_refl
             ltac:(vm_compute; reflexivity)).
Defined.

(** ** Escaping and the text of numbers *)

Lemma escape_char_no_markup (c : N) :
  forallb (fun x => negb (x =? 60) && negb (x =? 62)) (escape_char c) = true.
Proof.
  unfold escape_char.
  destruct (N.eqb_spec c 38); [reflexivity|].
  destruct (N.eqb_spec c 60); [reflexivity|].
  destruct (N.eqb_spec c 62); [reflexivity|].
  unfold ElementTree.xmlcharrefreplace. destruct (is_ascii c).
  - cbn [forallb]. rewrite andb_true_r.
    apply andb_true_intro. split; apply negb_true_iff, N.eqb_neq; done.
  - eval_lits. cbn [app forallb]. rewrite forallb_app.
    cbn. rewrite andb_true_r.
    apply (forallb_impl XML.is_digit); [|apply uint_chars_digits].
    intros x [H1 H2]%andb_prop. apply N.leb_le in H2.
    apply andb_true_intro. split; apply negb_true_iff, N.eqb_neq; lia.
Qed.

(** X4: the three replacements of [_escape_cdata] followed by the
    encoding of [tostring] amount to one substitution for each character
    of the text (no character is escaped twice), and the escaped text
    holds no [<], no [>] and only ASCII characters. *)
Theorem escape_text_no_markup (t : pystr) :
  escape_text t = flat_map escape_char t
  /\ forallb (fun x => negb (x =? 60) && negb (x =? 62)) (escape_text t)
     = true
  /\ forallb is_ascii (escape_text t) = true.
Proof.
  split; [apply escape_text_flat_map|]. split.
  - rewrite escape_text_flat_map. induction t as [|c t IH]; [reflexivity|].
    cbn [flat_map]. by rewrite forallb_app, escape_char_no_markup.
  - apply encode_ascii_is_ascii.
Qed.

Lemma forallb_take (p : N -> bool) (n : nat) (s : pystr) :
  forallb p s = true -> forallb p (take n s) = true.
Proof.
  revert n. induction s as [|c s IH]; intros [|n]; cbn; try done.
  intros [Hc Hs]%andb_prop. by rewrite Hc, IH.
Qed.

Lemma forallb_drop (p : N -> bool) (n : nat) (s : pystr) :
  forallb p s = true -> forallb p (drop n s) = true.
Proof.
  revert n. induction s as [|c s IH]; intros [|n]; cbn; try done.
  intros [Hc Hs]%andb_prop. by apply IH.
Qed.

Lemma forallb_replicate (p : N -> bool) (n : nat) (c : N) :
  p c = true -> forallb p (replicate n c) = true.
Proof. intros H. induction n; cbn; [done|]. by rewrite H. Qed.

Lemma is_digit_plain (c : N) : XML.is_digit c = true -> is_plain_char c = true.
Proof.
  unfold is_plain_char. intros ->. by rewrite orb_true_r.
Qed.

Lemma N_to_pystr_plain (n : N) : forallb is_plain_char (N_to_pystr n) = true.
Proof.
  apply (forallb_impl XML.is_digit); [apply is_digit_plain|].
  apply uint_chars_digits.
Qed.

Lemma exponent_text_plain (x : Z) :
  forallb is_plain_char (FloatRepr.exponent_text x) = true.
Proof.
  unfold FloatRepr.exponent_text.
  destruct (x <? 0)%Z, (Z.abs x <? 10)%Z; cbn [forallb];
    rewrite N_to_pystr_plain; reflexivity.
Qed.

Lemma layout_plain (ds : pystr) (decpt : Z) :
  forallb is_plain_char ds = true ->
  forallb is_plain_char (FloatRepr.layout ds decpt) = true.
Proof.
  intros Hds. unfold FloatRepr.layout, FloatRepr.zeros.
  destruct ((decpt <=? -4)%Z || (16 <? decpt)%Z).
  - destruct ds as [|d [|d' rest]]; [reflexivity| |].
    + cbn [forallb] in *. apply andb_prop in Hds as [-> _].
      apply exponent_text_plain.
    + cbn [forallb] in Hds. apply andb_prop in Hds as [Hd Hrest].
      cbn [forallb]. rewrite Hd. cbn [andb].
      change (is_plain_char 46) with true. cbn [andb].
      rewrite forallb_app, exponent_text_plain.
      cbn [forallb]. by rewrite Hrest.
  - destruct (decpt <=? 0)%Z.
    + cbn [forallb]. rewrite forallb_app, Hds, forallb_replicate; reflexivity.
    + destruct (_ <=? decpt)%Z.
      * rewrite !forallb_app, Hds, forallb_replicate; reflexivity.
      * rewrite forallb_app. cbn [forallb].
        rewrite forallb_take, forallb_drop by exact Hds. reflexivity.
Qed.

Lemma float_repr_plain (f : spec_float) :
  forallb is_plain_char (FloatRepr.float_repr f) = true.
Proof.
  destruct f as [[]|[]| |s m e]; try reflexivity.
  unfold FloatRepr.float_repr, FloatRepr.digits_decpt.
  destruct (FloatRepr.canonical m e) as [mc ec].
  destruct (FloatRepr.shortest _ _ _ _ _) as [dg kg].
  destruct (FloatRepr.strip_zeros _ _ _) as [d k].
  rewrite forallb_app, layout_plain by apply N_to_pystr_plain.
  by destruct s.
Qed.

Lemma py_str_numeric_plain (v : pyval) :
  is_numeric v = true -> forallb is_plain_char (py_str v) = true.
Proof.
  destruct v as [|[]|z|f|s]; try discriminate; intros _; try reflexivity.
  - destruct z; cbn [py_str Z_to_pystr]; apply N_to_pystr_plain.
  - apply float_repr_plain.
Qed.

Lemma is_plain_char_facts (c : N) :
  is_plain_char c = true ->
  XML.is_char c = true /\ escape_char c = [c] /\ (c =? 44) = false
  /\ (c =? 13) = false.
Proof.
  unfold is_plain_char, XML.is_letter, XML.is_digit, XML.is_char,
    escape_char, ElementTree.xmlcharrefreplace, is_ascii.
  rewrite !orb_true_iff, !andb_true_iff, !N.leb_le, !N.eqb_eq.
  intros H.
  assert (43 <= c <= 122) as Hr by lia.
  assert (c <> 38 /\ c <> 60 /\ c <> 62 /\ c <> 44) as (H38 & H60 & H62 & H44)
    by lia.
  apply N.eqb_neq in H38, H60, H62. rewrite H38, H60, H62.
  assert ((c <? 128) = true) as -> by (apply N.ltb_lt; lia).
  repeat split; try (apply N.eqb_neq; lia). lia.
Qed.

Lemma plain_text_facts (s : pystr) :
  forallb is_plain_char s = true ->
  forallb XML.is_char s = true /\ escape_text s = s
  /\ forallb (fun c => negb (c =? 44)) s = true
  /\ no_carriage_return s = true.
Proof.
  rewrite escape_text_flat_map. unfold no_carriage_return.
  induction s as [|c s IH]; [done|].
  cbn [forallb flat_map]. intros [Hc Hs]%andb_prop.
  destruct (is_plain_char_facts c Hc) as (H1 & H2 & H3 & H4).
  destruct (IH Hs) as (I1 & I2 & I3 & I4).
  rewrite H1, H2, H3, H4, I1, I2, I3, I4. done.
Qed.

Lemma coordinates_text_plain (latitude longitude : pyval) :
  is_numeric latitude = true -> is_numeric longitude = true ->
  forallb is_plain_char (py_str longitude) = true
  /\ forallb is_plain_char (py_str latitude) = true.
Proof. intros H1 H2. split; by apply py_str_numeric_plain. Qed.

Lemma numeric_coordinates_facts (latitude longitude : pyval) :
  is_numeric latitude = true -> is_numeric longitude = true ->
  forallb XML.is_char (coordinates_text latitude longitude) = true
  /\ escape_text (coordinates_text latitude longitude)
     = coordinates_text latitude longitude
  /\ no_carriage_return (coordinates_text latitude longitude) = true.
Proof.
  intros H1 H2.
  destruct (coordinates_text_plain _ _ H1 H2) as [Plon Plat].
  destruct (plain_text_facts _ Plon) as (A1 & A2 & _ & A4).
  destruct (plain_text_facts _ Plat) as (B1 & B2 & _ & B4).
  unfold coordinates_text, no_carriage_return in *.
  rewrite !forallb_app, !escape_text_app, A1, A2, A4, B1, B2, B4.
  done.
Qed.

Section Numbers.

Variable codec_registry : codecs.registry.

(** X5: for an eligible record whose coordinates are integers, floats
    or booleans, whose identifier converts to a string and whose
    description is formatted, when the configured encoding has an
    ASCII-compatible codec, nothing in the coordinates needs escaping: the
    fragment written holds [str(longitude)], a comma and [str(latitude)]
    as they are between the [coordinates] tags, all characters that XML
    allows. *)
Theorem numeric_coordinates_verbatim (self : KMLOutputModule)
  (event : EventObject) (event_data : EventData)
  (event_data_stream : option EventDataStream) (event_tag : option EventTag)
  (st : state) (identifier : AttributeContainerIdentifier) (id desc : pystr)
  (decoder : bytes -> outcome pystr) (latitude longitude : pyval) :
  getattr event_data "latitude" PyNone = latitude ->
  getattr event_data "longitude" PyNone = longitude ->
  is_numeric latitude = true ->
  is_numeric longitude = true ->
  GetIdentifier event = Some identifier ->
  CopyToString identifier = Ok id ->
  GetFormattedEvent (_event_formatting_helper self) event event_data
    event_data_stream event_tag = Ok desc ->
  codec_registry (encoding (_output_mediator self)) = Some decoder ->
  codecs.ascii_compatible decoder ->
  exists st',
    WriteEventBody codec_registry self event event_data event_data_stream
      event_tag st = (Ok tt, st')
    /\ output st'
       = output st
         ++ [ lit "<Placemark>" ++ element_text (lit "name") id
              ++ element_text (lit "description") (desc ++ [10])
              ++ lit "<Point><coordinates>"
              ++ py_str longitude ++ lit "," ++ py_str latitude
              ++ lit "</coordinates></Point></Placemark>" ]
    /\ forallb XML.is_char (py_str longitude ++ lit "," ++ py_str latitude)
       = true.
Proof.
  intros Hlat Hlon Nlat Nlon Hid Hcopy Hdesc Hreg Hdec.
  destruct (numeric_coordinates_facts _ _ Nlat Nlon) as (Hchar & Hesc & _).
  eexists. split.
  - apply (WriteEventBody_eligible codec_registry self event event_data
             event_data_stream event_tag st identifier id desc decoder);
      try assumption.
    rewrite Hlat, Hlon. by destruct latitude, longitude.
  - rewrite Hlat, Hlon. cbn [output]. split; [|exact Hchar].
    do 2 f_equal. unfold placemark_text. do 3 f_equal.
    unfold element_text at 1. rewrite Hesc. unfold coordinates_text.
    destruct (py_str longitude); eval_lits; list_norm; reflexivity.
Qed.

End Numbers.

(** X6: for coordinates that are integers, floats or booleans the
    coordinates text has exactly one comma: cutting it at the first comma
    gives [str(longitude)] and [str(latitude)] back. *)
Theorem numeric_coordinates_split (latitude longitude : pyval) :
  is_numeric latitude = true ->
  is_numeric longitude = true ->
  XML.span (fun c => negb (c =? 44)) (coordinates_text latitude longitude)
  = (py_str longitude, 44 :: py_str latitude)
  /\ forallb (fun c => negb (c =? 44)) (py_str latitude) = true.
Proof.
  intros Nlat Nlon.
  destruct (coordinates_text_plain _ _ Nlat Nlon) as [Plon Plat].
  destruct (plain_text_facts _ Plon) as (_ & _ & Clon & _).
  destruct (plain_text_facts _ Plat) as (_ & _ & Clat & _).
  split; [|exact Clat].
  unfold coordinates_text. change (lit "," ++ ?x) with (44 :: x).
  by apply span_app.
Qed.

Lemma numeric_coordinates_verbatim_example :
  exists st',
    WriteEventBody codecs.python_codecs utf8_module
      (rec_event empty_identifier_record)
      (rec_event_data empty_identifier_record) None None initial_state
    = (Ok tt, st')
    /\ output st'
       = [ lit "<Placemark><name /><description>Home" ++ 10 ::
           lit "</description><Point><coordinates>-70.25,12.5"
           ++ lit "</coordinates></Point></Placemark>" ].
Proof.
  destruct (numeric_coordinates_verbatim codecs.python_codecs utf8_module
              (rec_event empty_identifier_record)
              (rec_event_data empty_identifier_record) None None
              initial_state (mkIdentifier (Ok [])) [] (lit "Home")
              codecs.utf_8_decode float_12_5 float_minus_70_25
              eq_refl eq_refl eq_refl eq_refl eq_refl eq_refl eq_refl eq_refl
              utf_8_ascii_compatible)
    as (st' & Hrun & Hout & _).
  exists st'. split; [exact Hrun|]. rewrite Hout. vm_compute. reflexivity.
Defined.

Lemma numeric_coordinates_split_example :
  XML.span (fun c => negb (c =? 44))
    (coordinates_text float_37_42 float_minus_122_08)
  = (lit "-122.08", 44 :: lit "37.42").
Proof.
  destruct (numeric_coordinates_split float_37_42 float_minus_122_08
              eq_refl eq_refl) as [H _].
  rewrite H. vm_compute. reflexivity.
Defined.

(** ** Runs, whatever the characters of the texts *)

Section Streams.

Variable codec_registry : codecs.registry.

Lemma record_text_Some (self : KMLOutputModule) (r : record)
  (id desc coords : pystr) :
  record_texts self r = Some (id, desc, coords) ->
  record_text self r = placemark_text id desc coords.
Proof. unfold record_text. by intros ->. Qed.

(** The calls for records that all have texts write the fragments of the
    eligible ones, in order. *)
Lemma perform_records_texts (self : KMLOutputModule)
  (decoder : bytes -> outcome pystr) (rs : list record)
  (cs : list method_call) :
  codec_registry (encoding (_output_mediator self)) = Some decoder ->
  codecs.ascii_compatible decoder ->
  Forall (fun r => is_Some (record_texts self r)) (List.filter eligible rs) ->
  forall st, exists els,
    perform_all codec_registry self (map CallWriteEventBody rs ++ cs) st
    = perform_all codec_registry self cs
        (mkState els
           (output st ++ map (record_text self) (List.filter eligible rs))).
Proof.
  intros Hreg Hdec. induction rs as [|r rs IH]; intros Hrs st.
  - exists (elements st). cbn. rewrite app_nil_r. by destruct st.
  - cbn [map app perform_all List.filter] in *. unfold bind.
    destruct (eligible r) eqn:Hel.
    + apply Forall_cons in Hrs as [[[[id desc] coords] Ht] Hrs].
      rewrite (perform_eligible codec_registry self r st decoder id desc
                 coords Hreg Hdec Hel Ht).
      destruct (IH Hrs (mkState (placemark_elements id desc coords)
                          (output st ++ [placemark_text id desc coords])))
        as [els ->].
      exists els. cbn [output map].
      rewrite (record_text_Some _ _ _ _ _ Ht). by rewrite <- app_assoc.
    + rewrite (perform_ineligible codec_registry self r st Hel).
      exact (IH Hrs st).
Qed.

(** X7: when the identifier converts and the description is formatted
    for every eligible record, whatever characters they hold, and the
    configured codec is ASCII-compatible, the run returns normally and the
    sink receives the header, one write for each eligible record in input
    order and the footer: two writes more than there are eligible
    records. *)
Theorem write_document_streams (self : KMLOutputModule)
  (records : list record) (st : state) (decoder : bytes -> outcome pystr) :
  codec_registry (encoding (_output_mediator self)) = Some decoder ->
  codecs.ascii_compatible decoder ->
  Forall (fun r => is_Some (record_texts self r))
    (List.filter eligible records) ->
  exists st',
    write_document codec_registry self records st = (Ok tt, st')
    /\ output st'
       = output st
         ++ header_text (encoding (_output_mediator self))
            :: map (record_text self) (List.filter eligible records)
            ++ [footer_text]
    /\ length (output st')
       = (length (output st) + 2
          + length (List.filter eligible records))%nat.
Proof.
  intros Hreg Hdec Hrs.
  unfold write_document. cbn [perform_all perform]. unfold bind at 1.
  rewrite WriteHeader_text.
  destruct (perform_records_texts self decoder records [CallWriteFooter]
              Hreg Hdec Hrs
              (mkState (elements st)
                 (output st
                  ++ [header_text (encoding (_output_mediator self))])))
    as [els ->].
  eexists. split; [reflexivity|]. cbn [output]. split.
  - rewrite <- !app_assoc. reflexivity.
  - rewrite !length_app, length_map. cbn [length]. lia.
Qed.

(** A run up to the first eligible record without texts. *)
Lemma run_until_failure (self : KMLOutputModule)
  (before after : list record) (r : record) (e : exn) (st : state)
  (decoder : bytes -> outcome pystr) :
  codec_registry (encoding (_output_mediator self)) = Some decoder ->
  codecs.ascii_compatible decoder ->
  Forall (fun r => is_Some (record_texts self r))
    (List.filter eligible before) ->
  eligible r = true ->
  record_error self r = Some e ->
  exists st',
    write_document codec_registry self (before ++ r :: after) st
    = (Raise e, st')
    /\ output st'
       = output st
         ++ header_text (encoding (_output_mediator self))
            :: map (record_text self) (List.filter eligible before).
Proof.
  intros Hreg Hdec Hrs Hel Herr.
  unfold write_document. cbn [perform_all perform]. unfold bind at 1.
  rewrite WriteHeader_text, map_app, <- app_assoc.
  destruct (perform_records_texts self decoder before
              (map CallWriteEventBody (r :: after) ++ [CallWriteFooter])
              Hreg Hdec Hrs
              (mkState (elements st)
                 (output st
                  ++ [header_text (encoding (_output_mediator self))])))
    as [els ->].
  cbn [map app perform_all]. unfold bind at 1.
  rewrite perform_record_cases, Hel. unfold record_error in Herr.
  destruct (identifier_of r) as [id|e1].
  - destruct (description_of self r) as [desc|e2]; [discriminate|].
    injection Herr as ->. eexists. split; [reflexivity|].
    cbn [output]. by rewrite <- app_assoc.
  - injection Herr as ->. eexists. split; [reflexivity|].
    cbn [output]. by rewrite <- app_assoc.
Qed.

(** X8: when the records before an eligible record convert and that
    record's identifier or description fails, the run ends with that
    exception, and the sink holds the header and the fragments of the
    eligible records before it: no fragment of a later record and no
    footer. *)
Theorem first_failure_truncates (self : KMLOutputModule)
  (before after : list record) (r : record) (e : exn) (st : state)
  (decoder : bytes -> outcome pystr) :
  codec_registry (encoding (_output_mediator self)) = Some decoder ->
  codecs.ascii_compatible decoder ->
  Forall (fun r => is_Some (record_texts self r))
    (List.filter eligible before) ->
  eligible r = true ->
  record_error self r = Some e ->
  exists st',
    write_document codec_registry self (before ++ r :: after) st
    = (Raise e, st')
    /\ output st'
       = output st
         ++ header_text (encoding (_output_mediator self))
            :: map (record_text self) (List.filter eligible before).
Proof. apply run_until_failure. Qed.

End Streams.

(** A document without its footer: the elements the header opens are
    never closed. *)
Lemma parse_unclosed_document (enc : pystr)
  (texts : list (pystr * pystr * pystr)) :
  XML.is_enc_name enc = true ->
  Forall (fun '(id, desc, coords) =>
            forallb XML.is_char id = true /\ forallb XML.is_char desc = true
            /\ forallb XML.is_char coords = true) texts ->
  XML.parse_document
    (header_text enc
     ++ concat (map (fun '(id, desc, coords) => placemark_text id desc coords)
                  texts))
  = None.
Proof.
  intros He Ht. unfold XML.parse_document.
  rewrite <- (app_nil_r (concat _)).
  rewrite (lex_header _ _ He), (lex_placemarks _ _ _ Ht).
  cbn [XML.lex XML.flush rev app].
  repeat (progress cbn [rev app] || rewrite rev_app_distr
          || rewrite <- app_assoc || rewrite rev_involutive).
  cbn [XML.build].
  rewrite <- (app_nil_r (flat_map _ texts)), build_placemarks.
  reflexivity.
Qed.

Section Unclosed.

Variable codec_registry : codecs.registry.

(** X9: without [WriteFooter] the text written is not a well-formed
    document: after the header and the fragments of records with texts of
    XML characters, the [kml] and [Document] elements are still open and
    the reader rejects the text. *)
Theorem document_without_footer_unparsable (self : KMLOutputModule)
  (records : list record) (st : state) (decoder : bytes -> outcome pystr) :
  codec_registry (encoding (_output_mediator self)) = Some decoder ->
  codecs.ascii_compatible decoder ->
  XML.is_enc_name (encoding (_output_mediator self)) = true ->
  Forall (fun r => xml_record self r = true) (List.filter eligible records) ->
  let written :=
    header_text (encoding (_output_mediator self))
    :: map (record_text self) (List.filter eligible records) in
  exists st',
    perform_all codec_registry self
      (CallWriteHeader :: map CallWriteEventBody records) st = (Ok tt, st')
    /\ output st' = output st ++ written
    /\ XML.parse_document (concat written) = None.
Proof.
  intros Hreg Hdec Henc Hrs written.
  cbn [perform_all perform]. unfold bind at 1. rewrite WriteHeader_text.
  rewrite <- (app_nil_r (map CallWriteEventBody records)).
  destruct (perform_records codec_registry self decoder records [] Hreg Hdec
              Hrs
              (mkState (elements st)
                 (output st
                  ++ [header_text (encoding (_output_mediator self))])))
    as [els ->].
  eexists. split; [reflexivity|]. cbn [output]. split.
  - unfold written. by rewrite <- app_assoc.
  - unfold written. cbn [concat].
    destruct (record_texts_filter self _ Hrs) as (-> & _ & Hchars).
    by apply parse_unclosed_document.
Qed.

(** X10: for an eligible record whose identifier converts to the empty
    string and whose description is formatted, when the configured
    encoding has an ASCII-compatible codec, the [name] element is written
    as the empty-element tag [<name />], while the description, which
    always ends with a newline, has its start and end tags; when moreover
    the description and the coordinate text are made of characters that
    XML 1.0 allows, the fragment reads back with an empty name. *)
Theorem empty_identifier_short_tag (self : KMLOutputModule)
  (event : EventObject) (event_data : EventData)
  (event_data_stream : option EventDataStream) (event_tag : option EventTag)
  (st : state) (identifier : AttributeContainerIdentifier) (desc : pystr)
  (decoder : bytes -> outcome pystr) :
  is_not_None (getattr event_data "latitude" PyNone)
  && is_not_None (getattr event_data "longitude" PyNone) = true ->
  GetIdentifier event = Some identifier ->
  CopyToString identifier = Ok [] ->
  GetFormattedEvent (_event_formatting_helper self) event event_data
    event_data_stream event_tag = Ok desc ->
  codec_registry (encoding (_output_mediator self)) = Some decoder ->
  codecs.ascii_compatible decoder ->
  let coords :=
    coordinates_text (getattr event_data "latitude" PyNone)
      (getattr event_data "longitude" PyNone) in
  exists st' fragment,
    WriteEventBody codec_registry self event event_data event_data_stream
      event_tag st = (Ok tt, st')
    /\ output st' = output st ++ [fragment]
    /\ fragment
       = lit "<Placemark><name /><description>"
         ++ escape_text (desc ++ [10])
         ++ lit "</description><Point>"
         ++ element_text (lit "coordinates") coords
         ++ lit "</Point></Placemark>"
    /\ (forallb XML.is_char desc = true ->
        forallb XML.is_char coords = true ->
        recovered_text fragment (lit "name") = Some []).
Proof.
  intros Hel Hid Hcopy Hdesc Hreg Hdec coords.
  eexists. eexists. split.
  - by apply (WriteEventBody_eligible codec_registry self event event_data
                event_data_stream event_tag st identifier [] desc decoder).
  - cbn [output]. split; [reflexivity|]. split.
    + unfold placemark_text. fold coords.
      assert (element_text (lit "description") (desc ++ [10])
              = lit "<description>" ++ escape_text (desc ++ [10])
                ++ lit "</description>") as ->
        by (destruct desc; reflexivity).
      change (element_text (lit "name") []) with (lit "<name />").
      generalize (element_text (lit "coordinates") coords).
      generalize (escape_text (desc ++ [10])).
      intros a b. eval_lits. list_norm. reflexivity.
    + intros Cdesc Ccoords. unfold recovered_text. fold coords.
      rewrite (parse_placemark [] desc coords eq_refl Cdesc Ccoords).
      reflexivity.
Qed.

End Unclosed.

Lemma example_records_texts (rs : list record) :
  forallb (fun r => match record_texts utf8_module r with
                    | Some _ => true
                    | None => false
                    end) (List.filter eligible rs) = true ->
  Forall (fun r => is_Some (record_texts utf8_module r))
    (List.filter eligible rs).
Proof.
  induction (List.filter eligible rs) as [|r l IH]; [constructor|].
  cbn [forallb]. intros [Hr Hl]%andb_prop. constructor; [|by apply IH].
  destruct (record_texts utf8_module r); [eauto|discriminate].
Qed.

(** A record with a control character between the records of the
    example: three writes for the header and the footer and one for
    each of the two eligible records. *)
Lemma write_document_streams_example :
  exists st',
    write_document codecs.python_codecs utf8_module
      (escape_record :: example_records) initial_state = (Ok tt, st')
    /\ output st'
       = [ header_text (lit "utf-8");
           placemark_text (lit "E1") [72; 27] (lit "-70.25,12.5");
           placemark_text (lit "E1") (lit "Home") (lit "-122.08,37.42");
           footer_text ].
Proof.
  destruct (write_document_streams codecs.python_codecs utf8_module
              (escape_record :: example_records) initial_state
              codecs.utf_8_decode eq_refl utf_8_ascii_compatible
              (example_records_texts (escape_record :: example_records)
                 eq_refl))
    as (st' & Hrun & Hout & _).
  exists st'. split; [exact Hrun|]. rewrite Hout. vm_compute. reflexivity.
Defined.

(** The helper fails on the third record: the run ends there, after the
    header and the placemark of E1. *)
Lemma first_failure_truncates_example :
  exists st',
    write_document codecs.python_codecs utf8_module
      (example_records ++ record_without_message :: [tricky_record])
      initial_state = (Raise TypeError, st')
    /\ output st'
       = [ header_text (lit "utf-8");
           placemark_text (lit "E1") (lit "Home") (lit "-122.08,37.42") ].
Proof.
  destruct (first_failure_truncates codecs.python_codecs utf8_module
              example_records [tricky_record] record_without_message
              TypeError initial_state codecs.utf_8_decode eq_refl
              utf_8_ascii_compatible
              (example_records_texts example_records eq_refl)
              eq_refl eq_refl)
    as (st' & Hrun & Hout).
  exists st'. split; [exact Hrun|]. rewrite Hout. vm_compute. reflexivity.
Defined.

Lemma document_without_footer_unparsable_example :
  exists st',
    perform_all codecs.python_codecs utf8_module
      (CallWriteHeader :: map CallWriteEventBody example_records)
      initial_state = (Ok tt, st')
    /\ XML.parse_document (document st') = None.
Proof.
  destruct (document_without_footer_unparsable codecs.python_codecs
              utf8_module example_records initial_state codecs.utf_8_decode
              eq_refl utf_8_ascii_compatible eq_refl example_records_xml)
    as (st' & Hrun & Hout & Hparse).
  exists st'. split; [exact Hrun|]. unfold document. rewrite Hout.
  exact Hparse.
Defined.

Lemma empty_identifier_short_tag_example :
  exists st' fragment,
    WriteEventBody codecs.python_codecs utf8_module
      (rec_event empty_identifier_record)
      (rec_event_data empty_identifier_record) None None initial_state
    = (Ok tt, st')
    /\ output st' = [fragment]
    /\ recovered_text fragment (lit "name") = Some [].
Proof.
  destruct (empty_identifier_short_tag codecs.python_codecs utf8_module
              (rec_event empty_identifier_record)
              (rec_event_data empty_identifier_record) None None
              initial_state (mkIdentifier (Ok [])) (lit "Home")
              codecs.utf_8_decode eq_refl eq_refl eq_refl eq_refl eq_refl
              utf_8_ascii_compatible)
    as (st' & fragment & Hrun & Hout & _ & Hname).
  exists st', fragment. split; [exact Hrun|]. split; [exact Hout|].
  apply Hname; reflexivity.
Defined.

Section Salvage.

Variable codec_registry : codecs.registry.

Lemma xml_records_have_texts (self : KMLOutputModule) (rs : list record) :
  Forall (fun r => xml_record self r = true) rs ->
  Forall (fun r => is_Some (record_texts self r)) rs.
Proof.
  intros H. eapply Forall_impl; [exact H|]. intros r Hr. cbn beta in Hr.
  destruct (xml_record_texts _ _ Hr) as (id & desc & coords & -> & _).
  eauto.
Qed.

(** X11: when the configured encoding has an ASCII-compatible codec and
    a name that is a legal XML encoding name, and the eligible records
    before the failure have identifiers, descriptions and coordinate
    texts made of characters that XML 1.0 allows: after a run that ended
    with the failure of an eligible record, whose identifier does not
    convert or whose description is not formatted, [WriteFooter] still
    writes the footer, and the text is then a well-formed document with
    the placemarks of the eligible records before the failure. *)
Theorem footer_after_failure_salvages (self : KMLOutputModule)
  (before after : list record) (r : record) (e : exn) (st : state)
  (decoder : bytes -> outcome pystr) :
  codec_registry (encoding (_output_mediator self)) = Some decoder ->
  codecs.ascii_compatible decoder ->
  XML.is_enc_name (encoding (_output_mediator self)) = true ->
  Forall (fun r => xml_record self r = true) (List.filter eligible before) ->
  eligible r = true ->
  record_error self r = Some e ->
  let written :=
    header_text (encoding (_output_mediator self))
    :: map (record_text self) (List.filter eligible before)
    ++ [footer_text] in
  exists st1 st2,
    write_document codec_registry self (before ++ r :: after) st
    = (Raise e, st1)
    /\ WriteFooter self st1 = (Ok tt, st2)
    /\ output st2 = output st ++ written
    /\ XML.parse_document (concat written)
       = Some (kml_document
                 (map (record_node self) (List.filter eligible before))).
Proof.
  intros Hreg Hdec Henc Hrs Hel Herr written.
  destruct (run_until_failure codec_registry self before after r e st decoder
              Hreg Hdec (xml_records_have_texts _ _ Hrs) Hel Herr)
    as (st1 & Hrun & Hout).
  exists st1. eexists. split; [exact Hrun|]. split; [reflexivity|].
  cbn [output]. rewrite Hout. split.
  - unfold written. by rewrite <- app_assoc.
  - unfold written. cbn [concat]. rewrite concat_app. cbn [concat].
    rewrite app_nil_r.
    destruct (record_texts_filter self _ Hrs) as (-> & -> & Hchars).
    by apply parse_kml_document.
Qed.

(** X12: a call keeps nothing from earlier calls: its outcome and the
    text it appends are the same in every state. *)
Theorem calls_are_stateless (self : KMLOutputModule) (c : method_call)
  (st1 st2 : state) :
  (perform codec_registry self c st1).1 = (perform codec_registry self c st2).1
  /\ exists ws,
       output (perform codec_registry self c st1).2 = output st1 ++ ws
       /\ output (perform codec_registry self c st2).2 = output st2 ++ ws.
Proof.
  destruct c as [|r|].
  - cbn [perform]. rewrite !WriteHeader_text. split; [reflexivity|].
    eexists. split; reflexivity.
  - rewrite !perform_record_cases.
    destruct (eligible r).
    2:{ split; [reflexivity|]. exists []. by rewrite !app_nil_r. }
    destruct (identifier_of r) as [id|e].
    2:{ split; [reflexivity|]. exists []. cbn. by rewrite !app_nil_r. }
    destruct (description_of self r) as [desc|e].
    2:{ split; [reflexivity|]. exists []. cbn. by rewrite !app_nil_r. }
    cbv zeta. destruct (decoded_fragment _ _ _ _ _) as [fragment|e].
    + split; [reflexivity|]. eexists. split; reflexivity.
    + split; [reflexivity|]. exists []. cbn. by rewrite !app_nil_r.
  - cbn [perform]. split; [reflexivity|]. eexists. split; reflexivity.
Qed.

End Salvage.

Lemma footer_after_failure_salvages_example :
  exists st1 st2,
    write_document codecs.python_codecs utf8_module
      (example_records ++ malformed_record :: [tricky_record]) initial_state
    = (Raise (RuntimeError "malformed identifier"), st1)
    /\ WriteFooter utf8_module st1 = (Ok tt, st2)
    /\ XML.parse_document (document st2)
       = Some (kml_document
                 [placemark_node (lit "E1") (lit "Home")
                    (lit "-122.08,37.42")]).
Proof.
  destruct (footer_after_failure_salvages codecs.python_codecs utf8_module
              example_records [tricky_record] malformed_record
              (RuntimeError "malformed identifier") initial_state
              codecs.utf_8_decode eq_refl utf_8_ascii_compatible eq_refl
              example_records_xml eq_refl eq_refl)
    as (st1 & st2 & Hrun & Hfoot & Hout & Hparse).
  exists st1, st2. split; [exact Hrun|]. split; [exact Hfoot|].
  unfold document. rewrite Hout. exact Hparse.
Defined.

(** * The coordinates *)






Section CoordinatesElement.

Variable codec_registry : codecs.registry.


End CoordinatesElement.

